(** * HealthKitStreamIt: the extraction and daily-aggregation pipeline

    A shallow embedding of [healthkit_dashboard.py]:

    - [HEALTHKIT_METRICS], the metric catalog (an insertion-ordered dict,
      kept as an association list because [next(...)] walks it in order);
    - [parse_healthkit_export], the record extractor, with its two nested
      [try]/[except] handlers written out over an exception type;
    - [create_visualization], the daily aggregator: the boolean-mask filter,
      [groupby(...).agg(...)], the substring dispatch on the metric
      identifier and the figure that is returned next to the frame;
    - [main], one run of the page as a function of what its widgets hold,
      with its summary block.

    Library calls are embedded by what they do on the data the program hands
    them: [float(...)] and [datetime.strptime] as parsers into an explicit
    error type, an [ElementTree] document as a rose tree, a pandas frame as
    the list of its rows, a float64 as an IEEE 754 binary64 datum
    ([spec_float] with [prec = 53], [emax = 1024]). *)

From Stdlib Require Import ZArith List String Ascii Bool Lia.
From Stdlib Require Import SpecFloat DecimalString.
From Stdlib Require Import Sorted Permutation.
Import ListNotations.

Local Open Scope string_scope.
Local Open Scope list_scope.
Local Open Scope Z_scope.

(* ===================================================================== *)
(** ** Exceptions *)
(* ===================================================================== *)

(** The exception classes that the modelled statements can raise.  An
    exception value carries its class and the text [str(e)] prints. *)
Inductive exn_class : Type :=
  | ValueError
  | TypeError
  | StopIteration
  | IndexError
  | ParseError
  | OSError.

Record exn : Type := Raise { exn_cls : exn_class; exn_msg : string }.

Definition exn_class_eqb (a b : exn_class) : bool :=
  match a, b with
  | ValueError, ValueError | TypeError, TypeError
  | StopIteration, StopIteration | IndexError, IndexError
  | ParseError, ParseError | OSError, OSError => true
  | _, _ => false
  end.

(** [isinstance(e, classes)] for the flat classes above. *)
Definition isinstance (e : exn) (classes : list exn_class) : bool :=
  existsb (exn_class_eqb (exn_cls e)) classes.

(** A computation that returns or raises. *)
Definition py (A : Type) : Type := (exn + A)%type.

Definition ret {A} (a : A) : py A := inr a.
Definition raise {A} (c : exn_class) (msg : string) : py A := inl (Raise c msg).
Definition bind {A B} (m : py A) (k : A -> py B) : py B :=
  match m with
  | inl e => inl e
  | inr a => k a
  end.

Notation "x <- m ;; k" := (bind m (fun x => k))
  (at level 61, m at next level, right associativity).

(* ===================================================================== *)
(** ** Strings *)
(* ===================================================================== *)

Module PyStr.

(** [sub in s] on [str]. *)
Fixpoint contains (sub s : string) : bool :=
  if String.prefix sub s then true
  else match s with
       | EmptyString => false
       | String _ rest => contains sub rest
       end.

(** [s.split(sep)] for a non-empty separator: the scan goes left to
    right, an occurrence of [sep] closes the current piece and the scan
    resumes behind it.  [skip] counts the characters of a matched
    separator that are still to be stepped over; [piece] is the current
    piece, reversed. *)
Fixpoint split_go (sep s : string) (skip : nat) (piece : list ascii)
  : list string :=
  match s with
  | EmptyString => [string_of_list_ascii (rev piece)]
  | String c rest =>
      match skip with
      | S k => split_go sep rest k piece
      | O =>
          if String.prefix sep s
          then string_of_list_ascii (rev piece)
               :: split_go sep rest (Nat.pred (String.length sep)) []
          else split_go sep rest O (c :: piece)
      end
  end.

Definition split (sep s : string) : list string := split_go sep s O [].

(** [l[i]] on a list, raising [IndexError] out of range. *)
Definition getitem {A} (l : list A) (i : nat) : py A :=
  match nth_error l i with
  | Some a => ret a
  | None => raise IndexError "list index out of range"
  end.

Definition is_digit (c : ascii) : bool :=
  let n := nat_of_ascii c in (48 <=? n)%nat && (n <=? 57)%nat.

Definition digit_value (c : ascii) : Z := Z.of_nat (nat_of_ascii c) - 48.

(** ASCII characters for which [str.isspace] holds. *)
Definition is_space (c : ascii) : bool :=
  let n := nat_of_ascii c in
  ((9 <=? n)%nat && (n <=? 13)%nat)
  || ((28 <=? n)%nat && (n <=? 32)%nat).

(** ASCII lower-casing, for the case-insensitive literals of [float]. *)
Definition lower (c : ascii) : ascii :=
  let n := nat_of_ascii c in
  if (65 <=? n)%nat && (n <=? 90)%nat then ascii_of_nat (n + 32) else c.

Fixpoint lstrip (l : list ascii) : list ascii :=
  match l with
  | c :: rest => if is_space c then lstrip rest else l
  | [] => []
  end.

Definition strip (l : list ascii) : list ascii :=
  rev (lstrip (rev (lstrip l))).

(** The value of a run of decimal digits, most significant first. *)
Definition digits_value (ds : list ascii) : Z :=
  fold_left (fun acc c => 10 * acc + digit_value c) ds 0.

(** The longest prefix of digits, and the rest. *)
Fixpoint span_digits (l : list ascii) : list ascii * list ascii :=
  match l with
  | c :: rest =>
      if is_digit c
      then let '(ds, tl) := span_digits rest in (c :: ds, tl)
      else ([], l)
  | [] => ([], [])
  end.

End PyStr.

(* ===================================================================== *)
(** ** float64 *)
(* ===================================================================== *)

Module Float64.

Definition prec : Z := 53.
Definition emax : Z := 1024.

(** A Python [float]: an IEEE 754 binary64 datum. *)
Definition float64 : Type := spec_float.

Definition nan : float64 := S754_nan.
Definition zero : float64 := S754_zero false.

Definition add : float64 -> float64 -> float64 := SFadd prec emax.
Definition div : float64 -> float64 -> float64 := SFdiv prec emax.
Definition ltb : float64 -> float64 -> bool := SFltb.

(** The float nearest to an integer (ties to even). *)
Definition of_Z (n : Z) : float64 := binary_normalize prec emax n 0 false.

Definition isnan (x : float64) : bool :=
  match x with S754_nan => true | _ => false end.


Definition eqb (x y : float64) : bool :=
  match x, y with
  | S754_zero a, S754_zero b => Bool.eqb a b
  | S754_infinity a, S754_infinity b => Bool.eqb a b
  | S754_nan, S754_nan => true
  | S754_finite a m e, S754_finite b n f =>
      Bool.eqb a b && Pos.eqb m n && Z.eqb e f
  | _, _ => false
  end.

(** The float nearest to [(-1)^s * m * 10^e], rounded once (ties to
    even), as the correctly rounded [strtod] of CPython does. *)
Definition of_decimal (s : bool) (m : Z) (e : Z) : float64 :=
  match m with
  | Z0 => S754_zero s
  | Zneg _ => S754_nan
  | Zpos p =>
      match e with
      | Zneg k =>
          let '(q, e', l) :=
            SFdiv_core_binary prec emax (Zpos p) 0 (Z.pow_pos 10 k) 0 in
          binary_round_aux prec emax s q e' l
      | _ => binary_round prec emax s (Pos.mul p (Z.to_pos (10 ^ e))) 0
      end
  end.

End Float64.
Export Float64.

(* ===================================================================== *)
(** ** [float(...)] and the [.1f] format *)
(* ===================================================================== *)

Module PyFloat.
Import PyStr.

(** Underscores of a numeric literal: one may stand only between two
    digits.  The result is the text without them, or [None]. *)
Fixpoint drop_underscores (prev : option ascii) (l : list ascii)
  : option (list ascii) :=
  match l with
  | [] =>
      match prev with
      | Some "_"%char => None
      | _ => Some []
      end
  | c :: rest =>
      if Ascii.eqb c "_"
      then match prev with
           | Some p =>
               if is_digit p then drop_underscores (Some c) rest else None
           | None => None
           end
      else match prev with
           | Some "_"%char =>
               if is_digit c
               then option_map (cons c) (drop_underscores (Some c) rest)
               else None
           | _ => option_map (cons c) (drop_underscores (Some c) rest)
           end
  end.

(** An optional sign; [true] is minus. *)
Definition take_sign (l : list ascii) : bool * list ascii :=
  match l with
  | "-"%char :: rest => (true, rest)
  | "+"%char :: rest => (false, rest)
  | _ => (false, l)
  end.

(** The exponent part [e[+-]digits] when what follows the mantissa is
    exactly that, [Some 0] when nothing follows, [None] otherwise. *)
Definition exponent_part (l : list ascii) : option Z :=
  match l with
  | [] => Some 0
  | c :: rest =>
      if Ascii.eqb (lower c) "e"
      then let '(neg, rest') := take_sign rest in
           match span_digits rest' with
           | ((_ :: _) as ds, []) =>
               Some (if neg then - digits_value ds else digits_value ds)
           | _ => None
           end
      else None
  end.

(** The decimal form: digits, an optional point with more digits, at
    least one digit in all, then an optional exponent. *)
Definition decimal_literal (neg : bool) (l : list ascii) : option float64 :=
  let '(ip, rest) := span_digits l in
  let '(fp, rest') :=
    match rest with
    | "."%char :: tl => span_digits tl
    | _ => ([], rest)
    end in
  match ip ++ fp with
  | [] => None
  | ds =>
      match exponent_part rest' with
      | Some ex =>
          Some (of_decimal neg (digits_value ds)
                           (ex - Z.of_nat (List.length fp)))
      | None => None
      end
  end.

(** What [float(s)] makes of the text of a [str]. *)
Definition float_of_text (s : string) : option float64 :=
  match drop_underscores None (list_ascii_of_string s) with
  | None => None
  | Some l =>
      let '(neg, body) := take_sign (strip l) in
      let word := string_of_list_ascii (map lower body) in
      if String.eqb word "inf" || String.eqb word "infinity"
      then Some (S754_infinity neg)
      else if String.eqb word "nan" then Some S754_nan
      else decimal_literal neg body
  end.

(** [float(x)] for [x] the result of [Element.get]: a [str] or [None]. *)
Definition float (x : option string) : py float64 :=
  match x with
  | None =>
      raise TypeError
        "float() argument must be a string or a real number, not 'NoneType'"
  | Some s =>
      match float_of_text s with
      | Some v => ret v
      | None =>
          raise ValueError
            ("could not convert string to float: '" ++ s ++ "'")%string
      end
  end.

Definition decimal_of_Z (n : Z) : string :=
  NilZero.string_of_uint (N.to_uint (Z.to_N n)).

(** [n / d] rounded to the nearest integer, ties to even ([d > 0]). *)
Definition div_half_even (n d : Z) : Z :=
  let q := n / d in
  let r := n mod d in
  match 2 * r ?= d with
  | Lt => q
  | Gt => q + 1
  | Eq => if Z.even q then q else q + 1
  end.

(** [f"{x:.1f}"]: the exact value rounded to one decimal, ties to even. *)
Definition format_1f (x : float64) : string :=
  match x with
  | S754_nan => "nan"
  | S754_infinity s => if s then "-inf" else "inf"
  | S754_zero s => if s then "-0.0" else "0.0"
  | S754_finite s m e =>
      let tenths :=
        match e with
        | Zneg k => div_half_even (10 * Zpos m) (Z.pow_pos 2 k)
        | _ => 10 * Zpos m * 2 ^ e
        end in
      ((if s then "-" else "")
         ++ decimal_of_Z (tenths / 10) ++ "."
         ++ decimal_of_Z (tenths mod 10))%string
  end.

End PyFloat.

(* ===================================================================== *)
(** ** Calendar dates, timestamps and [datetime.strptime] *)
(* ===================================================================== *)

(** [datetime.date]. *)
Record date : Type := Date { year : Z; month : Z; day : Z }.

(** Dates compare as the triples (year, month, day). *)
Definition date_ltb (a b : date) : bool :=
  (year a <? year b)
  || ((year a =? year b)
      && ((month a <? month b)
          || ((month a =? month b) && (day a <? day b)))).

Definition date_eqb (a b : date) : bool :=
  (year a =? year b) && (month a =? month b) && (day a =? day b).

Definition date_leb (a b : date) : bool := date_ltb a b || date_eqb a b.

(** An aware [datetime.datetime]: wall-clock fields and the UTC offset of
    its fixed-offset [tzinfo], in seconds. *)
Record datetime : Type := DateTime {
  dt_day : date;
  hour : Z;
  minute : Z;
  second : Z;
  utcoffset : Z
}.

Module PyDatetime.
Import PyStr.

Definition is_leap (y : Z) : bool :=
  ((y mod 4 =? 0) && negb (y mod 100 =? 0)) || (y mod 400 =? 0).

Definition days_in_month (y m : Z) : Z :=
  if m =? 2 then (if is_leap y then 29 else 28)
  else if (m =? 4) || (m =? 6) || (m =? 9) || (m =? 11) then 30
  else 31.

Definition two (a b : ascii) : Z := 10 * digit_value a + digit_value b.

(** The text that [datetime.strptime(s, '%Y-%m-%d %H:%M:%S %z')] turns
    into a timestamp.  The layout embedded is the one the export schema
    writes, [YYYY-MM-DD HH:MM:SS +HHMM] with every field at full width; no
    other text is matched here.  The field ranges are those of the matcher
    and of the [datetime] and [timezone] constructors: year 1..9999, month
    1..12, a day that exists in that month, hour 0..23, minute and second
    0..59, offset minutes 0..59 and an offset strictly inside one day. *)
Definition strptime_text (s : string) : option datetime :=
  match list_ascii_of_string s with
  | [y1; y2; y3; y4; "-"; m1; m2; "-"; d1; d2; " ";
     H1; H2; ":"; M1; M2; ":"; S1; S2; " "; sg; z1; z2; z3; z4]%char =>
      if forallb is_digit
           [y1; y2; y3; y4; m1; m2; d1; d2; H1; H2; M1; M2; S1; S2;
            z1; z2; z3; z4]
         && (Ascii.eqb sg "+" || Ascii.eqb sg "-")
      then
        let y := 100 * two y1 y2 + two y3 y4 in
        let m := two m1 m2 in
        let d := two d1 d2 in
        let off := 3600 * two z1 z2 + 60 * two z3 z4 in
        if (1 <=? y) && (1 <=? m) && (m <=? 12)
           && (1 <=? d) && (d <=? days_in_month y m)
           && (two H1 H2 <=? 23) && (two M1 M2 <=? 59)
           && (two S1 S2 <=? 59)
           && (two z3 z4 <=? 59) && (off <? 86400)
        then Some {| dt_day := Date y m d;
                     hour := two H1 H2;
                     minute := two M1 M2;
                     second := two S1 S2;
                     utcoffset := if Ascii.eqb sg "-" then - off else off |}
        else None
      else None
  | _ => None
  end.

(** [datetime.strptime(x, '%Y-%m-%d %H:%M:%S %z')] for [x] the result of
    [Element.get]: [None] is a [TypeError], text that does not match a
    [ValueError]. *)
Definition strptime (x : option string) : py datetime :=
  match x with
  | None => raise TypeError "strptime() argument 1 must be str, not None"
  | Some s =>
      match strptime_text s with
      | Some t => ret t
      | None =>
          raise ValueError
            ("time data '" ++ s
             ++ "' does not match format '%Y-%m-%d %H:%M:%S %z'")%string
      end
  end.

End PyDatetime.

(* ===================================================================== *)
(** ** The metric catalog *)
(* ===================================================================== *)

(** [HEALTHKIT_METRICS]: category name to the identifiers it lists, in the
    order of the dict literal. *)
Definition HEALTHKIT_METRICS : list (string * list string) :=
  [ ("Activity",
     [ "HKQuantityTypeIdentifierStepCount";
       "HKQuantityTypeIdentifierDistanceWalkingRunning";
       "HKQuantityTypeIdentifierFlightsClimbed";
       "HKQuantityTypeIdentifierActiveEnergyBurned";
       "HKQuantityTypeIdentifierBasalEnergyBurned" ]);
    ("Vital Signs",
     [ "HKQuantityTypeIdentifierHeartRate";
       "HKQuantityTypeIdentifierRestingHeartRate";
       "HKQuantityTypeIdentifierHeartRateVariabilitySDNN";
       "HKQuantityTypeIdentifierOxygenSaturation";
       "HKQuantityTypeIdentifierRespiratoryRate";
       "HKQuantityTypeIdentifierBodyTemperature";
       "HKQuantityTypeIdentifierBloodPressureSystolic";
       "HKQuantityTypeIdentifierBloodPressureDiastolic" ]);
    ("Body Measurements",
     [ "HKQuantityTypeIdentifierHeight";
       "HKQuantityTypeIdentifierBodyMass";
       "HKQuantityTypeIdentifierBodyFatPercentage";
       "HKQuantityTypeIdentifierLeanBodyMass";
       "HKQuantityTypeIdentifierBodyMassIndex" ]);
    ("Sleep",
     [ "HKCategoryTypeIdentifierSleepAnalysis" ]);
    ("Nutrition",
     [ "HKQuantityTypeIdentifierDietaryWater";
       "HKQuantityTypeIdentifierDietaryEnergyConsumed";
       "HKQuantityTypeIdentifierDietaryProtein";
       "HKQuantityTypeIdentifierDietaryFatTotal";
       "HKQuantityTypeIdentifierDietaryCarbohydrates" ]);
    ("Mindfulness",
     [ "HKCategoryTypeIdentifierMindfulSession" ]) ].

(** [x in l] for a list of [str]. *)
Definition str_in (x : string) (l : list string) : bool :=
  existsb (String.eqb x) l.

(** [record_type in l] where [record_type] comes from [Element.get]:
    [None] is in no list of strings. *)
Definition opt_in (x : option string) (l : list string) : bool :=
  match x with
  | Some s => str_in s l
  | None => false
  end.

(** [[metric for category in catalog.values() for metric in category]]. *)
Definition flatten_metrics (catalog : list (string * list string))
  : list string :=
  flat_map snd catalog.

(** [next(cat for cat, metrics in catalog.items() if record_type in metrics)]:
    the first category that lists the identifier; an exhausted generator
    raises [StopIteration]. *)
Fixpoint next_category (catalog : list (string * list string))
         (record_type : string) : py string :=
  match catalog with
  | [] => raise StopIteration ""
  | (cat, metrics) :: rest =>
      if str_in record_type metrics then ret cat
      else next_category rest record_type
  end.

(* ===================================================================== *)
(** ** The export document *)
(* ===================================================================== *)

(** An [xml.etree.ElementTree.Element]: tag, attributes, children. *)
#[warnings="-register-all"]
Inductive Element : Type :=
  Elem (tag : string) (attrib : list (string * string))
       (children : list Element).

Definition tag_of (e : Element) : string :=
  match e with Elem t _ _ => t end.

(** [element.get(key)]: the attribute's text, or [None]. *)
Definition get (e : Element) (key : string) : option string :=
  match e with
  | Elem _ attrib _ =>
      option_map snd (find (fun kv => String.eqb (fst kv) key) attrib)
  end.

(** Every element below [e], in document order ([e] itself is not one). *)
Fixpoint descendants (e : Element) : list Element :=
  match e with
  | Elem _ _ children =>
      (fix walk (cs : list Element) : list Element :=
         match cs with
         | [] => []
         | c :: rest => c :: descendants c ++ walk rest
         end) children
  end.

(** [root.findall('.//' + tag)]. *)
Definition findall_descendants (root : Element) (tag : string)
  : list Element :=
  filter (fun e => String.eqb (tag_of e) tag) (descendants root).

(** What the uploaded file holds, as far as [ET.parse] can tell: a file
    that cannot be read, text that is not well-formed XML, or a document
    with its root element. *)
Inductive uploaded_file : Type :=
  | Unreadable (msg : string)
  | IllFormed (msg : string)
  | Document (root : Element).

(** [ET.parse(uploaded_file).getroot()]. *)
Definition ET_parse_getroot (f : uploaded_file) : py Element :=
  match f with
  | Unreadable msg => raise OSError msg
  | IllFormed msg => raise ParseError msg
  | Document root => ret root
  end.

(* ===================================================================== *)
(** ** Streamlit output *)
(* ===================================================================== *)

(** The page elements the modelled code writes, in the order written.
    [st.metric] is kept with the text it shows for its value. *)
Inductive st_call : Type :=
  | st_error (body : string)
  | st_subheader (body : string)
  | st_columns (n : Z)
  | st_metric (label : string) (value : string).

(* ===================================================================== *)
(** ** The record extractor *)
(* ===================================================================== *)

(** One row of the frame: the dict appended to [records]. *)
Record Observation : Type := Obs {
  type_ : string;
  value : float64;
  unit_ : option string;
  date_ : datetime;
  category : string
}.

(** A frame of observations, as the list of its rows.  The columns are
    the keys of the dict, and [date] is a column of timestamps, so that
    [df['date'].dt.date] is the calendar date of each row. *)
Definition DataFrame : Type := list Observation.

Definition pd_DataFrame (records : list Observation) : DataFrame := records.

(** The dict literal of the loop body, evaluated in the order written:
    [float(...)], the unit, [strptime(...)], then [next(...)]. *)
Definition record_dict (record : Element) (record_type : string)
  : py Observation :=
  value <- PyFloat.float (get record "value") ;;
  let unit := get record "unit" in
  date <- PyDatetime.strptime (get record "startDate") ;;
  category <- next_category HEALTHKIT_METRICS record_type ;;
  ret {| type_ := record_type; value := value; unit_ := unit;
         date_ := date; category := category |}.

(** One turn of the [for] loop: the membership test, the inner [try] and
    its [except (ValueError, TypeError): continue].  Any other exception
    leaves the loop.  A missing [type] attribute is [None], which is in no
    list of identifiers. *)
Definition loop_body (all_metrics : list string) (records : list Observation)
           (record : Element) : py (list Observation) :=
  match get record "type" with
  | None => ret records
  | Some record_type =>
      if str_in record_type all_metrics then
        match record_dict record record_type with
        | inr row => ret (records ++ [row])
        | inl e =>
            if isinstance e [ValueError; TypeError] then ret records
            else inl e
        end
      else ret records
  end.

Fixpoint for_records (all_metrics : list string)
         (todo : list Element) (records : list Observation)
  : py (list Observation) :=
  match todo with
  | [] => ret records
  | record :: rest =>
      records' <- loop_body all_metrics records record ;;
      for_records all_metrics rest records'
  end.

(** The body of the outer [try]. *)
Definition parse_body (f : uploaded_file) : py DataFrame :=
  root <- ET_parse_getroot f ;;
  let records := [] in
  let all_metrics := flatten_metrics HEALTHKIT_METRICS in
  records <- for_records all_metrics (findall_descendants root "Record")
                         records ;;
  ret (pd_DataFrame records).

(** [parse_healthkit_export]: the frame, or [None] after [st.error] has
    shown the exception's text ([except Exception] takes every class
    modelled here). *)
Definition parse_healthkit_export (f : uploaded_file)
  : option DataFrame * list st_call :=
  match parse_body f with
  | inr df => (Some df, [])
  | inl e => (None, [st_error ("Error processing file: " ++ exn_msg e)%string])
  end.

(* ===================================================================== *)
(** ** pandas: reductions and [groupby] *)
(* ===================================================================== *)

Module Pandas.

(** The reductions skip NaN entries ([skipna=True], the default). *)
Definition dropna (vs : list float64) : list float64 :=
  filter (fun v => negb (isnan v)) vs.

(** ['sum']: 0.0 when nothing is left to add. *)
Definition sum (vs : list float64) : float64 :=
  fold_left add (dropna vs) zero.

(** ['mean']: the sum over the count, NaN when nothing is left. *)
Definition mean (vs : list float64) : float64 :=
  match dropna vs with
  | [] => nan
  | kept => div (sum vs) (of_Z (Z.of_nat (List.length kept)))
  end.

(** ['min'] and ['max']: NaN when nothing is left. *)
Definition min (vs : list float64) : float64 :=
  match dropna vs with
  | [] => nan
  | v :: rest => fold_left (fun m x => if ltb x m then x else m) rest v
  end.

Definition max (vs : list float64) : float64 :=
  match dropna vs with
  | [] => nan
  | v :: rest => fold_left (fun m x => if ltb m x then x else m) rest v
  end.

(** The group keys of [groupby(..., sort=True)]: each key once, in
    ascending order. *)
Fixpoint insert_key (k : date) (keys : list date) : list date :=
  match keys with
  | [] => [k]
  | k' :: rest =>
      if date_ltb k k' then k :: keys
      else if date_eqb k k' then keys
      else k' :: insert_key k rest
  end.

Definition group_keys (ks : list date) : list date :=
  fold_right insert_key [] ks.

(** [frame.groupby(key)]: for each key in ascending order, the rows that
    carry it, in frame order. *)
Definition groupby {A} (key : A -> date) (frame : list A)
  : list (date * list A) :=
  map (fun k => (k, filter (fun r => date_eqb (key r) k) frame))
      (group_keys (map key frame)).

End Pandas.

(* ===================================================================== *)
(** ** The daily aggregator *)
(* ===================================================================== *)

(** [df['date'].dt.date] on one row. *)
Definition dt_date (r : Observation) : date := dt_day (date_ r).

(** The frame [daily_data] after [reset_index()]: a [date] column and
    either the three columns [('value', 'mean'|'min'|'max')] or the one
    column [value]. *)
Inductive DailyData : Type :=
  | DailyBand (rows : list (date * (float64 * float64 * float64)))
  | DailyValue (rows : list (date * float64)).

(** A [go.Scatter] trace as the source builds it. *)
Record Scatter : Type := {
  scatter_x : list date;
  scatter_y : list float64;
  scatter_name : string;
  line_color : string
}.

(** The figure, by the calls that build it: [go.Figure()] with its added
    traces, or [px.line(daily_data, x='date', y='value', title=...)]; both
    followed by [update_layout(height=...)]. *)
Inductive Figure : Type :=
  | go_Figure (traces : list Scatter) (height : Z)
  | px_line (data_frame : list (date * float64)) (title : string) (height : Z).

(** The boolean mask of the first statement. *)
Definition in_selection (metric_type : string) (date_range : date * date)
           (r : Observation) : bool :=
  String.eqb (type_ r) metric_type
  && date_leb (fst date_range) (dt_date r)
  && date_leb (dt_date r) (snd date_range).

(** [any(keyword in metric_type for keyword in [...])]. *)
Definition any_keyword (metric_type : string) : bool :=
  existsb (fun keyword => PyStr.contains keyword metric_type)
          ["StepCount"; "Distance"; "Energy"].

(** [groupby(...).agg({'value': ['mean', 'min', 'max']}).reset_index()]. *)
Definition agg_band (groups : list (date * list Observation))
  : list (date * (float64 * float64 * float64)) :=
  map (fun g => let vs := map value (snd g) in
                (fst g, (Pandas.mean vs, Pandas.min vs, Pandas.max vs)))
      groups.

(** [groupby(...).agg({'value': agg_func}).reset_index()]. *)
Definition agg_value (agg_func : list float64 -> float64)
           (groups : list (date * list Observation))
  : list (date * float64) :=
  map (fun g => (fst g, agg_func (map value (snd g)))) groups.

Definition create_visualization (df : DataFrame) (metric_type : string)
           (date_range : date * date) : py (Figure * DailyData) :=
  let filtered_df := filter (in_selection metric_type date_range) df in
  if PyStr.contains "HeartRate" metric_type then
    let daily_data := agg_band (Pandas.groupby dt_date filtered_df) in
    let fig :=
      go_Figure
        [ {| scatter_x := map fst daily_data;
             scatter_y := map (fun r => fst (fst (snd r))) daily_data;
             scatter_name := "Average"; line_color := "blue" |};
          {| scatter_x := map fst daily_data;
             scatter_y := map (fun r => snd (snd r)) daily_data;
             scatter_name := "Maximum"; line_color := "red" |};
          {| scatter_x := map fst daily_data;
             scatter_y := map (fun r => snd (fst (snd r))) daily_data;
             scatter_name := "Minimum"; line_color := "green" |} ]
        500 in
    ret (fig, DailyBand daily_data)
  else
    let agg_func :=
      if any_keyword metric_type then Pandas.sum else Pandas.mean in
    let daily_data := agg_value agg_func (Pandas.groupby dt_date filtered_df) in
    label <- PyStr.getitem (PyStr.split "Identifier" metric_type) 1 ;;
    let fig :=
      px_line daily_data ("Daily " ++ label ++ " Over Time")%string 500 in
    ret (fig, DailyValue daily_data).

(* ===================================================================== *)
(** ** Frames as objects *)
(* ===================================================================== *)

(** [df] reaches [create_visualization] as a reference to the caller's
    frame.  The store below holds the frames by address, so that what the
    call does to objects that exist before it can be stated: [df[mask]],
    [agg(...)] and [reset_index()] each build a new frame, and no statement
    of the function assigns into [df]. *)
Module Store.





End Store.



(* ===================================================================== *)
(** ** The summary block of [main] *)
(* ===================================================================== *)

(** [len(daily_data)]. *)
Definition daily_len (daily_data : DailyData) : nat :=
  match daily_data with
  | DailyBand rows => List.length rows
  | DailyValue rows => List.length rows
  end.

(** [f"{daily_data['value'].REDUCE():.1f}"].  On the one-column frame
    [daily_data['value']] is a series and its reduction a float.  On the
    three-column frame it is itself a frame, its reduction a series, and
    formatting a series with [.1f] raises [TypeError]. *)
Definition format_reduced (reduce : list float64 -> float64)
           (daily_data : DailyData) : py string :=
  match daily_data with
  | DailyValue rows => ret (PyFloat.format_1f (reduce (map snd rows)))
  | DailyBand _ =>
      raise TypeError "unsupported format string passed to Series.__format__"
  end.

(** The statements from [st.subheader('Summary Statistics')] to the last
    [st.metric]: what was written to the page, and whether the block ran
    to its end. *)
Definition main_summary (daily_data : DailyData)
  : list st_call * py unit :=
  let head := [st_subheader "Summary Statistics"; st_columns 4] in
  match format_reduced Pandas.mean daily_data with
  | inl e => (head, inl e)
  | inr average =>
      match format_reduced Pandas.max daily_data with
      | inl e => (head ++ [st_metric "Average" average], inl e)
      | inr maximum =>
          match format_reduced Pandas.min daily_data with
          | inl e =>
              (head ++ [st_metric "Average" average;
                        st_metric "Maximum" maximum], inl e)
          | inr minimum =>
              (head ++ [st_metric "Average" average;
                        st_metric "Maximum" maximum;
                        st_metric "Minimum" minimum;
                        st_metric "Total Days"
                          (PyFloat.decimal_of_Z
                             (Z.of_nat (daily_len daily_data)))],
               ret tt)
          end
      end
  end.

(* ===================================================================== *)
(** ** The page: [main] *)
(* ===================================================================== *)

(** Streamlit runs [main] from top to bottom on every interaction; a
    widget call shows the widget and returns the value it holds in that
    run.  One run is therefore a function of what the widgets hold. *)
Record Session : Type := {
  (** [st.file_uploader(...)]: the upload, or [None]. *)
  file_uploader : option uploaded_file;
  (** [st.sidebar.selectbox(label, options)]: the option selected. *)
  selectbox : string -> list string -> string;
  (** [st.sidebar.date_input(label, value)]: the tuple of dates picked,
      of length two once both ends of the range are set. *)
  date_input : string -> list datetime -> list date
}.

(** What one run writes to the page, in order: the calls of [main]
    itself, and through [st_] those of the functions above. *)
Inductive page_call : Type :=
  | st_title (body : string)
  | st_info (body : string)
  | st_file_uploader (label : string) (type : list string)
  | st_spinner (text : string)
  | st_sidebar_header (body : string)
  | st_sidebar_selectbox (label : string) (options : list string)
  | st_sidebar_date_input (label : string) (value : list datetime)
  | st_plotly_chart (fig : Figure) (use_container_width : bool)
  | st_dataframe (data : DailyData)
  | st_warning (body : string)
  | st_write (text : string) (values : list string)
  | st_ (call : st_call).

(** The exceptions of [main]: those of the functions it calls, and the
    [KeyError] of a dict lookup. *)
Inductive main_exn : Type :=
  | Raised (e : exn)
  | KeyError (key : string).

(** A run of page code: what was written, and the value or the exception
    that ended it. *)
Definition page (A : Type) : Type := (list page_call * (main_exn + A))%type.

Definition done {A} (a : A) : page A := ([], inr a).

Definition show (call : page_call) : page unit := ([call], inr tt).

Definition and_then {A B} (m : page A) (k : A -> page B) : page B :=
  match m with
  | (written, inl e) => (written, inl e)
  | (written, inr a) => let '(more, r) := k a in (written ++ more, r)
  end.

Notation "x <~ m ;; k" := (and_then m (fun x => k))
  (at level 61, m at next level, right associativity).
Notation "m ;;; k" := (and_then m (fun _ => k))
  (at level 61, right associativity).

(** A call that writes nothing and may raise. *)
Definition of_py {A} (m : py A) : page A :=
  ([], match m with
       | inl e => inl (Raised e)
       | inr a => inr a
       end).

(** A call into the functions above, with what it wrote. *)
Definition of_call {A} (out : list st_call * py A) : page A :=
  (map st_ (fst out),
   match snd out with
   | inl e => inl (Raised e)
   | inr a => inr a
   end).

(** [d[key]] on the catalog dict. *)
Fixpoint dict_getitem (d : list (string * list string)) (key : string)
  : page (list string) :=
  match d with
  | [] => ([], inl (KeyError key))
  | (k, v) :: rest =>
      if String.eqb k key then done v else dict_getitem rest key
  end.

(** [series.unique()]: each value once, in order of first appearance. *)
Fixpoint unique (l : list string) : list string :=
  match l with
  | [] => []
  | x :: rest => x :: filter (fun y => negb (String.eqb x y)) (unique rest)
  end.

(** [date.toordinal()]: the day number in the proleptic Gregorian
    calendar, 0001-01-01 being day 1. *)
Definition toordinal (d : date) : Z :=
  let y := year d - 1 in
  y * 365 + y / 4 - y / 100 + y / 400
  + fold_left Z.add
      (map (PyDatetime.days_in_month (year d))
           (map Z.of_nat (seq 1 (Z.to_nat (month d - 1))))) 0
  + day d.

(** The point in time of a timestamp, in seconds: wall clock minus
    offset. *)
Definition instant (t : datetime) : Z :=
  toordinal (dt_day t) * 86400 + hour t * 3600 + minute t * 60 + second t
  - utcoffset t.

(** [df['date'].min()] and [df['date'].max()] on a frame with rows: the
    earliest and the latest point in time. *)
Definition date_min (first : Observation) (rest : list Observation)
  : datetime :=
  fold_left (fun m r => if instant (date_ r) <? instant m then date_ r else m)
            rest (date_ first).

Definition date_max (first : Observation) (rest : list Observation)
  : datetime :=
  fold_left (fun m r => if instant m <? instant (date_ r) then date_ r else m)
            rest (date_ first).

(** The call [create_visualization(df, metric_type, date_range)] with the
    tuple [st.sidebar.date_input] returned: the function reads
    [date_range[0]] and [date_range[1]]. *)
Definition create_visualization_call (df : DataFrame) (metric_type : string)
           (date_range : list date) : py (Figure * DailyData) :=
  match date_range with
  | start_date :: end_date :: _ =>
      create_visualization df metric_type (start_date, end_date)
  | _ => raise IndexError "tuple index out of range"
  end.

(** [df['category']]. *)
Definition category_column (df : DataFrame) : list string :=
  map category df.

(** [[metric for metric in HEALTHKIT_METRICS[category]
      if metric in df['type'].unique()]], given the list of the category. *)
Definition available_in (df : DataFrame) (metrics : list string)
  : list string :=
  filter (fun metric => str_in metric (unique (map type_ df))) metrics.

Definition main (s : Session) : page unit :=
  show (st_title "Enhanced Apple HealthKit Data Visualization") ;;;
  show (st_info
          "Upload your Apple HealthKit export file (size limit is set in config.toml)") ;;;
  show (st_file_uploader "Upload your Apple HealthKit export (XML)" ["xml"]) ;;;
  match file_uploader s with
  | None => done tt
  | Some uploaded_file =>
      show (st_spinner
              "Processing your HealthKit data... This might take a moment for large files.") ;;;
      df <~ of_call (snd (parse_healthkit_export uploaded_file),
                     ret (fst (parse_healthkit_export uploaded_file))) ;;
      match df with
      | Some ((first :: rest) as df) =>
          show (st_sidebar_header "Filters") ;;;
          let categories := map fst HEALTHKIT_METRICS in
          show (st_sidebar_selectbox "Select Category" categories) ;;;
          let category := selectbox s "Select Category" categories in
          metrics <~ dict_getitem HEALTHKIT_METRICS category ;;
          let available_metrics := available_in df metrics in
          match available_metrics with
          | _ :: _ =>
              show (st_sidebar_selectbox "Select Metric" available_metrics) ;;;
              let metric_type :=
                selectbox s "Select Metric" available_metrics in
              let value := [date_min first rest; date_max first rest] in
              show (st_sidebar_date_input "Select Date Range" value) ;;;
              let date_range := date_input s "Select Date Range" value in
              out <~ of_py (create_visualization_call df metric_type
                                                      date_range) ;;
              let '(fig, daily_data) := out in
              show (st_plotly_chart fig true) ;;;
              of_call (main_summary daily_data) ;;;
              show (st_ (st_subheader "Raw Data")) ;;;
              show (st_dataframe daily_data)
          | [] =>
              show (st_warning
                      ("No data available for the selected category: "
                       ++ category)%string) ;;;
              show (st_write "Available categories in your data:"
                             (unique (category_column df)))
          end
      | _ => done tt
      end
  end.


(* ===================================================================== *)
(** * Vocabulary of the properties, and sample data *)
(* ===================================================================== *)

(** ** Dates and daily frames *)

(** The strict order on dates, as a proposition. *)
Definition date_lt (a b : date) : Prop := date_ltb a b = true.

(** The numeric fields of one row of [daily_data]. *)
Inductive Fields : Type :=
  | Band (mean min max : float64)
  | Single (v : float64).

(** The [date] column of [daily_data]. *)
Definition dates_of (daily_data : DailyData) : list date :=
  match daily_data with
  | DailyBand rows => map fst rows
  | DailyValue rows => map fst rows
  end.

(** The rows of [daily_data] dated [d], by their fields. *)
Definition rows_at (daily_data : DailyData) (d : date) : list Fields :=
  match daily_data with
  | DailyBand rows =>
      map (fun r => Band (fst (fst (snd r))) (snd (fst (snd r))) (snd (snd r)))
          (filter (fun r => date_eqb (fst r) d) rows)
  | DailyValue rows =>
      map (fun r => Single (snd r))
          (filter (fun r => date_eqb (fst r) d) rows)
  end.

(** The same-day group of the specification: the values, in frame order,
    of the observations of the target metric whose calendar date is [d]
    and lies in the inclusive range. *)
Definition day_values (df : DataFrame) (metric_type : string)
           (date_range : date * date) (d : date) : list float64 :=
  map value
      (filter (fun r => in_selection metric_type date_range r
                        && date_eqb (dt_date r) d) df).

(** The aggregation policy of the specification: mean, minimum and
    maximum for an identifier that contains "HeartRate"; otherwise the sum
    for one that contains "StepCount", "Distance" or "Energy"; otherwise
    the mean. *)
Definition policy_fields (metric_type : string) (vs : list float64)
  : Fields :=
  if PyStr.contains "HeartRate" metric_type
  then Band (Pandas.mean vs) (Pandas.min vs) (Pandas.max vs)
  else if PyStr.contains "StepCount" metric_type
          || PyStr.contains "Distance" metric_type
          || PyStr.contains "Energy" metric_type
       then Single (Pandas.sum vs)
       else Single (Pandas.mean vs).

(** The frame [create_visualization] returns next to the figure, when it
    returns. *)
Definition daily_frame (df : DataFrame) (metric_type : string)
           (date_range : date * date) : DailyData :=
  let groups :=
    Pandas.groupby dt_date
                   (filter (in_selection metric_type date_range) df) in
  if PyStr.contains "HeartRate" metric_type
  then DailyBand (agg_band groups)
  else DailyValue
         (agg_value (if any_keyword metric_type
                     then Pandas.sum else Pandas.mean) groups).

(** The identifiers on which the call returns: the heart-rate branch
    builds no title, the other branch needs a piece after "Identifier". *)
Definition drawable (metric_type : string) : bool :=
  PyStr.contains "HeartRate" metric_type
  || PyStr.contains "Identifier" metric_type.

(** What the summary block writes when every reduction comes out as NaN. *)
Definition nan_summary : list st_call :=
  [ st_subheader "Summary Statistics"; st_columns 4;
    st_metric "Average" "nan"; st_metric "Maximum" "nan";
    st_metric "Minimum" "nan"; st_metric "Total Days" "0" ].

(** ** The extractor, element by element *)

(** [all_metrics] of [parse_healthkit_export]. *)
Definition all_metrics : list string := flatten_metrics HEALTHKIT_METRICS.

(** The observations one element contributes: what one turn of the loop
    appends to an empty [records]. *)
Definition observations_of (record : Element) : list Observation :=
  match loop_body all_metrics [] record with
  | inr rows => rows
  | inl _ => []
  end.

(** [c] is a category of the catalog that lists [m]. *)
Definition lists (catalog : list (string * list string)) (c m : string)
  : Prop :=
  exists metrics, In (c, metrics) catalog /\ In m metrics.

(** No string occurs twice in [l]. *)
Fixpoint nodupb (l : list string) : bool :=
  match l with
  | [] => true
  | x :: rest => negb (str_in x rest) && nodupb rest
  end.

(** ** Sample data *)

(** A [Record] element of the export schema. *)
Definition Record_ (type value startDate : string) : Element :=
  Elem "Record"
       [("type", type); ("value", value); ("unit", "count");
        ("startDate", startDate)] [].

(** Three heart-rate readings on one day, two step counts and two body
    masses on others, and records the extractor has to skip: a value that
    is no number, a date in another layout, a type outside the catalog. *)
Definition sample_export : uploaded_file :=
  Document
    (Elem "HealthData" [("locale", "en_US")]
       [ Elem "ExportDate" [("value", "2024-03-01 00:00:00 +0000")] [];
         Record_ "HKQuantityTypeIdentifierHeartRate" "60"
                 "2024-02-02 08:00:00 +0000";
         Record_ "HKQuantityTypeIdentifierHeartRate" "70"
                 "2024-02-02 12:00:00 +0000";
         Record_ "HKQuantityTypeIdentifierHeartRate" "80"
                 "2024-02-02 18:00:00 +0000";
         Record_ "HKQuantityTypeIdentifierStepCount" "1000"
                 "2024-02-01 09:00:00 +0000";
         Record_ "HKQuantityTypeIdentifierStepCount" "2000"
                 "2024-02-01 17:30:00 +0000";
         Record_ "HKQuantityTypeIdentifierBodyMass" "70.0"
                 "2024-01-31 07:00:00 +0000";
         Record_ "HKQuantityTypeIdentifierBodyMass" "71.0"
                 "2024-01-31 21:00:00 +0000";
         Record_ "HKQuantityTypeIdentifierBodyMass" "abc"
                 "2024-01-31 22:00:00 +0000";
         Record_ "HKQuantityTypeIdentifierBodyMass" "72.0" "yesterday";
         Record_ "HKQuantityTypeIdentifierAppleStandTime" "5"
                 "2024-01-31 22:00:00 +0000" ]).

(** The frame extracted from [sample_export]. *)
Definition sample_frame : DataFrame :=
  match fst (parse_healthkit_export sample_export) with
  | Some df => df
  | None => []
  end.

Definition year_2024 : date * date := (Date 2024 1 1, Date 2024 12 31).




(** An upload that is not XML. *)
Definition ill_formed_export : uploaded_file :=
  IllFormed "syntax error: line 1, column 0".

(** ** Elements of a document and what they decode to *)

Definition children_of (e : Element) : list Element :=
  match e with Elem _ _ children => children end.

(** [x] stands below [root] in the tree, at any depth. *)
Inductive below (root : Element) : Element -> Prop :=
  | below_child (c : Element) :
      In c (children_of root) -> below root c
  | below_deeper (c x : Element) :
      In c (children_of root) -> below c x -> below root x.

(** The call returned. *)
Definition succeeds {A} (m : py A) : bool :=
  match m with
  | inr _ => true
  | inl _ => false
  end.

(** A [Record] element the extractor keeps: a type of the catalog, a
    value [float] reads and a start date [strptime] reads. *)
Definition well_formed (record : Element) : bool :=
  opt_in (get record "type") all_metrics
  && succeeds (PyFloat.float (get record "value"))
  && succeeds (PyDatetime.strptime (get record "startDate")).

(** Observation [o] is what element [record] decodes to. *)
Definition decodes_to (record : Element) (o : Observation) : Prop :=
  get record "type" = Some (type_ o)
  /\ PyFloat.float (get record "value") = inr (value o)
  /\ unit_ o = get record "unit"
  /\ PyDatetime.strptime (get record "startDate") = inr (date_ o)
  /\ lists HEALTHKIT_METRICS (category o) (type_ o).

(** ** A run of [main] *)

(** A select box returns one of the options it shows. *)
Definition selectbox_picks_an_option (s : Session) : Prop :=
  forall label options,
    options <> [] -> In (selectbox s label options) options.

(** The category the first select box holds. *)
Definition selected_category (s : Session) : string :=
  selectbox s "Select Category" (map fst HEALTHKIT_METRICS).

(** The identifiers the catalog lists under a category name. *)
Definition metrics_of (category : string) : list string :=
  match find (fun kv => String.eqb (fst kv) category) HEALTHKIT_METRICS with
  | Some kv => snd kv
  | None => []
  end.

(** [available_metrics] of [main]. *)
Definition offered_metrics (s : Session) (df : DataFrame) : list string :=
  available_in df (metrics_of (selected_category s)).

(** The metric the second select box holds. *)
Definition selected_metric (s : Session) (df : DataFrame) : string :=
  selectbox s "Select Metric" (offered_metrics s df).

(** The value [main] hands to the date input. *)
Definition date_span (df : DataFrame) : list datetime :=
  match df with
  | first :: rest => [date_min first rest; date_max first rest]
  | [] => []
  end.

(** The tuple the date input holds. *)
Definition selected_range (s : Session) (df : DataFrame) : list date :=
  date_input s "Select Date Range" (date_span df).

(** What every run with an upload writes first. *)
Definition page_top : list page_call :=
  [ st_title "Enhanced Apple HealthKit Data Visualization";
    st_info
      "Upload your Apple HealthKit export file (size limit is set in config.toml)";
    st_file_uploader "Upload your Apple HealthKit export (XML)" ["xml"];
    st_spinner
      "Processing your HealthKit data... This might take a moment for large files." ].

(** The sidebar of a run that got a frame with rows. *)
Definition sidebar_top : list page_call :=
  [ st_sidebar_header "Filters";
    st_sidebar_selectbox "Select Category" (map fst HEALTHKIT_METRICS) ].

(** The sidebar widgets of a run that offers metrics. *)
Definition sidebar_metric (s : Session) (df : DataFrame) : list page_call :=
  [ st_sidebar_selectbox "Select Metric" (offered_metrics s df);
    st_sidebar_date_input "Select Date Range" (date_span df) ].


(** ** More sample data *)

(** A step-count record inside a [Workout] element inside the root. *)
Definition nested_export : Element :=
  Elem "HealthData" []
       [ Elem "Workout" []
              [ Record_ "HKQuantityTypeIdentifierStepCount" "12"
                        "2024-02-01 09:00:00 +0000" ] ].



(** A session on an upload in which each select box holds the first of
    its options that is in [preferred] (its first option when none is),
    and the date input holds [range]. *)
Definition picking (f : uploaded_file) (preferred : list string)
           (range : list date) : Session :=
  {| file_uploader := Some f;
     selectbox := fun _ options =>
                    match find (fun o => str_in o preferred) options with
                    | Some o => o
                    | None => hd "" options
                    end;
     date_input := fun _ _ => range |}.



(* ===================================================================== *)
(** * The order on dates and the group keys *)
(* ===================================================================== *)

(** Dates are triples of integers: unfold the comparisons, turn the
    boolean connectives into propositions and leave the rest to [lia]. *)
Ltac date_lia :=
  unfold date_leb, date_ltb, date_eqb in *; simpl in *;
  rewrite ?orb_true_iff, ?andb_true_iff, ?orb_false_iff, ?andb_false_iff,
    ?Z.ltb_lt, ?Z.eqb_eq, ?Z.ltb_ge, ?Z.eqb_neq in *;
  lia.

Lemma date_eqb_eq (a b : date) : date_eqb a b = true <-> a = b.
Proof.
  destruct a as [ya ma da], b as [yb mb db]. split.
  - intros H. assert (ya = yb /\ ma = mb /\ da = db) as (-> & -> & ->)
      by date_lia. reflexivity.
  - intros H. inversion H; subst. date_lia.
Qed.


Lemma date_eqb_sym (a b : date) : date_eqb a b = date_eqb b a.
Proof. destruct a, b. date_lia. Qed.

Lemma date_ltb_irrefl (a : date) : date_ltb a a = false.
Proof. destruct a. date_lia. Qed.

Lemma date_ltb_trans (a b c : date) :
  date_ltb a b = true -> date_ltb b c = true -> date_ltb a c = true.
Proof. destruct a, b, c. intros H1 H2. date_lia. Qed.

Lemma date_ltb_connected (a b : date) :
  date_ltb a b = false -> date_eqb a b = false -> date_ltb b a = true.
Proof. destruct a, b. intros H1 H2. date_lia. Qed.



Section GroupKeys.
Import Pandas.

Lemma In_insert_key (k : date) (keys : list date) (d : date) :
  In d (insert_key k keys) <-> d = k \/ In d keys.
Proof.
  induction keys as [| k' rest IH]; simpl.
  - intuition.
  - destruct (date_ltb k k') eqn:Hlt; simpl; [intuition |].
    destruct (date_eqb k k') eqn:Heq; simpl.
    + apply date_eqb_eq in Heq. subst. intuition.
    + rewrite IH. intuition.
Qed.

Lemma insert_key_sorted (k : date) (keys : list date) :
  StronglySorted date_lt keys -> StronglySorted date_lt (insert_key k keys).
Proof.
  induction 1 as [| k' rest Hsorted IH Hall]; simpl.
  - repeat constructor.
  - destruct (date_ltb k k') eqn:Hlt.
    + constructor; [now constructor |].
      constructor; [exact Hlt |].
      eapply Forall_impl; [| exact Hall].
      intros d Hd. exact (date_ltb_trans _ _ _ Hlt Hd).
    + destruct (date_eqb k k') eqn:Heq.
      * now constructor.
      * constructor; [exact IH |].
        apply Forall_forall. intros d Hd.
        apply In_insert_key in Hd. destruct Hd as [-> | Hd].
        -- now apply date_ltb_connected.
        -- rewrite Forall_forall in Hall. now apply Hall.
Qed.

Lemma group_keys_sorted (ks : list date) :
  StronglySorted date_lt (group_keys ks).
Proof.
  induction ks as [| k ks IH]; simpl.
  - constructor.
  - now apply insert_key_sorted.
Qed.

Lemma In_group_keys (ks : list date) (d : date) :
  In d (group_keys ks) <-> In d ks.
Proof.
  induction ks as [| k ks IH]; simpl.
  - tauto.
  - rewrite In_insert_key, IH. intuition.
Qed.

(** In a strictly increasing list a date occurs at most once. *)
Lemma sorted_pick {B} (F : date -> B) (keys : list date) (d : date) :
  StronglySorted date_lt keys ->
  filter (fun row => date_eqb (fst row) d) (map (fun k => (k, F k)) keys)
  = if existsb (date_eqb d) keys then [(d, F d)] else [].
Proof.
  induction 1 as [| k rest Hsorted IH Hall]; simpl; [reflexivity |].
  rewrite (date_eqb_sym d k).
  destruct (date_eqb k d) eqn:Heq; simpl.
  - apply date_eqb_eq in Heq. subst k. rewrite IH.
    destruct (existsb (date_eqb d) rest) eqn:Hex; [| reflexivity].
    apply existsb_exists in Hex. destruct Hex as [d' [Hin Hd']].
    apply date_eqb_eq in Hd'. subst d'.
    rewrite Forall_forall in Hall. specialize (Hall d Hin).
    unfold date_lt in Hall. rewrite date_ltb_irrefl in Hall. discriminate.
  - exact IH.
Qed.

Lemma existsb_group_keys (ks : list date) (d : date) :
  existsb (date_eqb d) (group_keys ks) = existsb (date_eqb d) ks.
Proof.
  apply eq_true_iff_eq. rewrite !existsb_exists.
  split; intros [d' [Hin Hd']]; exists d'; split; auto;
    now apply In_group_keys.
Qed.

End GroupKeys.

(* ===================================================================== *)
(** * The chart title and the two ways out of [create_visualization] *)
(* ===================================================================== *)

Section Title.
Import PyStr.

Lemma split_go_nonempty (sep s : string) (skip : nat) (piece : list ascii) :
  split_go sep s skip piece <> [].
Proof.
  revert skip piece.
  induction s as [| c rest IH]; intros skip piece; cbn [split_go].
  - discriminate.
  - destruct skip; [| apply IH].
    destruct (String.prefix sep (String c rest)); [discriminate | apply IH].
Qed.

(** [s.split(sep)] has a second piece exactly when [sep] occurs in [s]. *)
Lemma split_go_second (sep s : string) (piece : list ascii) :
  sep <> "" ->
  nth_error (split_go sep s O piece) 1 = None <-> contains sep s = false.
Proof.
  intros Hsep. revert piece.
  induction s as [| c rest IH]; intros piece.
  - simpl. destruct sep; [congruence | tauto].
  - cbn [split_go contains].
    destruct (String.prefix sep (String c rest)) eqn:Hpre.
    + split; [| discriminate].
      cbn [nth_error].
      destruct (split_go sep rest (Nat.pred (String.length sep)) [])
        eqn:Hgo; [| discriminate].
      now apply split_go_nonempty in Hgo.
    + apply IH.
Qed.

Lemma label_found (metric_type : string) :
  contains "Identifier" metric_type = true ->
  exists label, getitem (split "Identifier" metric_type) 1 = inr label.
Proof.
  intros H. unfold getitem, split.
  destruct (nth_error (split_go "Identifier" metric_type O []) 1) eqn:Hnth.
  - now eexists.
  - apply split_go_second in Hnth; [congruence | easy].
Qed.

Lemma label_missing (metric_type : string) :
  contains "Identifier" metric_type = false ->
  getitem (split "Identifier" metric_type) 1
  = inl (Raise IndexError "list index out of range") :> py string.
Proof.
  intros H. unfold getitem, split.
  assert (Hsep : "Identifier" <> "") by easy.
  apply (proj2 (split_go_second _ _ [] Hsep)) in H. now rewrite H.
Qed.

End Title.

Lemma create_visualization_returns df metric_type date_range :
  drawable metric_type = true ->
  exists fig,
    create_visualization df metric_type date_range
    = inr (fig, daily_frame df metric_type date_range).
Proof.
  unfold drawable, create_visualization, daily_frame. intros H.
  destruct (PyStr.contains "HeartRate" metric_type); [now eexists |].
  simpl in H. destruct (label_found _ H) as [label Hlabel].
  rewrite Hlabel. simpl. now eexists.
Qed.

Lemma create_visualization_raises df metric_type date_range :
  drawable metric_type = false ->
  create_visualization df metric_type date_range
  = inl (Raise IndexError "list index out of range").
Proof.
  unfold drawable, create_visualization. intros H.
  apply orb_false_iff in H. destruct H as [Hhr Hid].
  rewrite Hhr, (label_missing _ Hid). reflexivity.
Qed.

(** Either way out, in one statement. *)
Lemma create_visualization_cases df metric_type date_range :
  match create_visualization df metric_type date_range with
  | inr (_, daily_data) =>
      daily_data = daily_frame df metric_type date_range
      /\ drawable metric_type = true
  | inl e =>
      e = Raise IndexError "list index out of range"
      /\ drawable metric_type = false
  end.
Proof.
  destruct (drawable metric_type) eqn:Hd.
  - destruct (create_visualization_returns df _ date_range Hd) as [fig ->].
    now split.
  - rewrite (create_visualization_raises df _ date_range Hd). now split.
Qed.

(* ===================================================================== *)
(** * The daily frame *)
(* ===================================================================== *)

Lemma filter_filter_and {A} (P Q : A -> bool) (l : list A) :
  filter Q (filter P l) = filter (fun a => P a && Q a) l.
Proof.
  induction l as [| a l IH]; simpl; [reflexivity |].
  destruct (P a); simpl; [destruct (Q a) |]; now rewrite IH.
Qed.

Lemma any_keyword_spelled (metric_type : string) :
  any_keyword metric_type
  = PyStr.contains "StepCount" metric_type
    || PyStr.contains "Distance" metric_type
    || PyStr.contains "Energy" metric_type.
Proof.
  unfold any_keyword. cbn [existsb].
  now rewrite orb_false_r, orb_assoc.
Qed.

Lemma daily_frame_dates df metric_type date_range :
  dates_of (daily_frame df metric_type date_range)
  = Pandas.group_keys
      (map dt_date (filter (in_selection metric_type date_range) df)).
Proof.
  unfold daily_frame, Pandas.groupby, agg_band, agg_value.
  destruct (PyStr.contains "HeartRate" metric_type); simpl;
    rewrite !map_map; simpl; apply map_id.
Qed.

Lemma day_values_nonempty df metric_type date_range d :
  day_values df metric_type date_range d <> []
  <-> existsb (date_eqb d)
        (map dt_date (filter (in_selection metric_type date_range) df))
      = true.
Proof.
  unfold day_values. rewrite <- filter_filter_and.
  induction (filter (in_selection metric_type date_range) df)
    as [| r rows IH]; simpl.
  - split; [congruence | discriminate].
  - rewrite (date_eqb_sym d). destruct (date_eqb (dt_date r) d); simpl.
    + split; [reflexivity | discriminate].
    + exact IH.
Qed.

Lemma daily_frame_rows_at df metric_type date_range d :
  rows_at (daily_frame df metric_type date_range) d
  = if existsb (date_eqb d)
         (map dt_date (filter (in_selection metric_type date_range) df))
    then [policy_fields metric_type
                        (day_values df metric_type date_range d)]
    else [].
Proof.
  unfold daily_frame, policy_fields, day_values, Pandas.groupby,
    agg_band, agg_value.
  rewrite <- any_keyword_spelled, <- filter_filter_and.
  set (selected := filter (in_selection metric_type date_range) df).
  rewrite <- (existsb_group_keys (map dt_date selected)).
  pose proof (group_keys_sorted (map dt_date selected)) as Hsorted.
  destruct (PyStr.contains "HeartRate" metric_type); cbn [rows_at].
  - rewrite map_map. cbn [fst snd].
    rewrite (sorted_pick _ _ d Hsorted).
    now destruct (existsb _ _).
  - rewrite map_map. cbn [fst snd].
    rewrite (sorted_pick _ _ d Hsorted).
    destruct (existsb _ _); [| reflexivity].
    now destruct (any_keyword metric_type).
Qed.




(* ===================================================================== *)
(** * The store *)
(* ===================================================================== *)

Section ReadOnly.
Import Store.





End ReadOnly.

(* ===================================================================== *)
(** * The extractor, element by element *)
(* ===================================================================== *)

Lemma str_in_In (x : string) (l : list string) :
  str_in x l = true <-> In x l.
Proof.
  unfold str_in. rewrite existsb_exists. split.
  - intros [y [Hin Heq]]. apply String.eqb_eq in Heq. now subst.
  - intros Hin. exists x. split; [exact Hin | apply String.eqb_refl].
Qed.

Lemma float_raises (x : option string) (e : exn) :
  PyFloat.float x = inl e -> isinstance e [ValueError; TypeError] = true.
Proof.
  unfold PyFloat.float. destruct x as [s |].
  - destruct (PyFloat.float_of_text s); [discriminate |].
    intros H. inversion H. reflexivity.
  - intros H. inversion H. reflexivity.
Qed.

Lemma strptime_raises (x : option string) (e : exn) :
  PyDatetime.strptime x = inl e ->
  isinstance e [ValueError; TypeError] = true.
Proof.
  unfold PyDatetime.strptime. destruct x as [s |].
  - destruct (PyDatetime.strptime_text s); [discriminate |].
    intros H. inversion H. reflexivity.
  - intros H. inversion H. reflexivity.
Qed.

(** [next(...)] finds a category for every identifier of the flattened
    list: the generator is never exhausted inside the loop. *)
Lemma next_category_found (catalog : list (string * list string))
      (m : string) :
  str_in m (flatten_metrics catalog) = true ->
  exists c, next_category catalog m = inr c /\ lists catalog c m.
Proof.
  unfold flatten_metrics. induction catalog as [| [cat metrics] rest IH].
  - discriminate.
  - intros Hin. cbn [next_category].
    destruct (str_in m metrics) eqn:Hhere.
    + exists cat. split; [reflexivity |].
      exists metrics. split; [now left | now apply str_in_In].
    + apply str_in_In in Hin. cbn [flat_map snd] in Hin.
      apply in_app_or in Hin. destruct Hin as [Hin | Hin].
      * apply str_in_In in Hin. congruence.
      * apply str_in_In in Hin. destruct (IH Hin) as [c [Hc [ms [H1 H2]]]].
        exists c. split; [exact Hc |]. exists ms. split; [now right | exact H2].
Qed.

(** In a catalog whose flattened list has no repetition, an identifier is
    listed by one category only. *)
Lemma lists_unique (catalog : list (string * list string))
      (c c' m : string) :
  NoDup (flatten_metrics catalog) ->
  lists catalog c m -> lists catalog c' m -> c = c'.
Proof.
  unfold flatten_metrics, lists.
  induction catalog as [| [cat metrics] rest IH]; cbn [flat_map snd].
  - intros _ [ms [[] _]].
  - intros Hnodup [ms [Hc Hm]] [ms' [Hc' Hm']].
    assert (Hsplit : forall x, In x metrics -> In x (flat_map snd rest) ->
                               False).
    { clear - Hnodup. induction metrics as [| a metrics IHm]; [easy |].
      cbn in Hnodup. inversion Hnodup as [| ? ? Hnot Hrest]; subst.
      intros x [-> | Hx] Hx'.
      - apply Hnot, in_or_app. now right.
      - exact (IHm Hrest x Hx Hx'). }
    assert (Hrest : forall k ms0, In (k, ms0) rest -> In m ms0 ->
                                  In m (flat_map snd rest)).
    { intros k ms0 Hk Hm0. apply in_flat_map. now exists (k, ms0). }
    destruct Hc as [Hc | Hc], Hc' as [Hc' | Hc'].
    + congruence.
    + inversion Hc; subst. exfalso. eauto.
    + inversion Hc'; subst. exfalso. eauto.
    + apply IH.
      * apply NoDup_app_remove_l in Hnodup. exact Hnodup.
      * now exists ms.
      * now exists ms'.
Qed.

Lemma nodupb_NoDup (l : list string) : nodupb l = true -> NoDup l.
Proof.
  induction l as [| x rest IH]; cbn [nodupb]; [constructor |].
  intros H. apply andb_true_iff in H. destruct H as [Hx Hrest].
  constructor; [| now apply IH].
  intros Hin. apply str_in_In in Hin. rewrite Hin in Hx. discriminate.
Qed.

(** No identifier is listed twice in [HEALTHKIT_METRICS]. *)
Lemma catalog_NoDup : NoDup all_metrics.
Proof. apply nodupb_NoDup. vm_compute. reflexivity. Qed.

(** The dict literal raises nothing but what the inner handler takes. *)
Lemma record_dict_outcome (record : Element) (m : string) :
  str_in m all_metrics = true ->
  match record_dict record m with
  | inr o =>
      type_ o = m
      /\ PyFloat.float (get record "value") = inr (value o)
      /\ PyDatetime.strptime (get record "startDate") = inr (date_ o)
      /\ lists HEALTHKIT_METRICS (category o) m
  | inl e =>
      isinstance e [ValueError; TypeError] = true
      /\ (PyFloat.float (get record "value") = inl e
          \/ PyDatetime.strptime (get record "startDate") = inl e)
  end.
Proof.
  intros Hin. unfold record_dict.
  destruct (PyFloat.float (get record "value")) as [e | v] eqn:Hv; cbn [bind].
  - split; [exact (float_raises _ _ Hv) | now left].
  - destruct (PyDatetime.strptime (get record "startDate"))
      as [e | t] eqn:Ht; cbn [bind].
    + split; [exact (strptime_raises _ _ Ht) | now right].
    + destruct (next_category_found HEALTHKIT_METRICS m Hin)
        as [c [Hc Hlists]].
      rewrite Hc. cbn [bind ret type_ value date_ category]. auto.
Qed.

(** One turn of the loop never raises: it appends what the element
    contributes, which is one row or none. *)
Lemma loop_body_appends (records : list Observation) (record : Element) :
  loop_body all_metrics records record
  = inr (records ++ observations_of record).
Proof.
  unfold observations_of, loop_body.
  destruct (get record "type") as [m |]; [| now rewrite app_nil_r].
  destruct (str_in m all_metrics) eqn:Hin; [| now rewrite app_nil_r].
  pose proof (record_dict_outcome record m Hin) as Hout.
  destruct (record_dict record m) as [e | o].
  - destruct Hout as [-> _]. now rewrite app_nil_r.
  - reflexivity.
Qed.

Lemma for_records_appends (todo : list Element)
      (records : list Observation) :
  for_records all_metrics todo records
  = inr (records ++ flat_map observations_of todo).
Proof.
  revert records. induction todo as [| record rest IH]; intros records.
  - cbn. now rewrite app_nil_r.
  - cbn [for_records flat_map]. rewrite loop_body_appends. cbn [bind].
    rewrite IH. now rewrite app_assoc.
Qed.

(** On a document, the extractor returns the frame of what each [Record]
    element contributes, in document order, and reports nothing. *)
Lemma parse_document (root : Element) :
  parse_healthkit_export (Document root)
  = (Some (flat_map observations_of (findall_descendants root "Record")),
     []).
Proof.
  unfold parse_healthkit_export, parse_body, ret.
  cbn [ET_parse_getroot bind]. unfold ret. cbn [bind].
  fold all_metrics. rewrite for_records_appends. reflexivity.
Qed.

Lemma observations_of_at_most_one (record : Element) :
  (List.length (observations_of record) <= 1)%nat.
Proof.
  unfold observations_of, loop_body.
  destruct (get record "type") as [m |]; [| cbn; lia].
  destruct (str_in m all_metrics); [| cbn; lia].
  destruct (record_dict record m) as [e | o]; [| cbn; lia].
  destruct (isinstance e _); cbn; lia.
Qed.

Lemma flat_map_length_le {A B} (f : A -> list B) (l : list A) :
  (forall a, List.length (f a) <= 1)%nat ->
  (List.length (flat_map f l) <= List.length l)%nat.
Proof.
  intros Hf. induction l as [| a l IH]; cbn; [lia |].
  rewrite length_app. specialize (Hf a). lia.
Qed.

(* ===================================================================== *)
(** * Properties of the record extractor *)
(* ===================================================================== *)

(** ** Categories and counts *)

(** C5.  Extraction of a document returns the frame of what each
    [Record] element contributes.  An element whose [type] is not in the
    flattened catalog contributes nothing, so the frame has no more rows
    than there are elements.  An observation that comes from an element
    of recognized type [m] carries [m] and the category of the catalog
    that lists [m], which is the only one that does. *)
Theorem extraction_categories_and_count :
  forall root : Element,
    let records := findall_descendants root "Record" in
    exists df,
      parse_healthkit_export (Document root) = (Some df, [])
      /\ df = flat_map observations_of records
      /\ (List.length df <= List.length records)%nat
      /\ (List.length records <= List.length (descendants root))%nat
      /\ forall record,
           (opt_in (get record "type") all_metrics = false ->
            observations_of record = [])
           /\ (forall m o,
                  get record "type" = Some m ->
                  str_in m all_metrics = true ->
                  In o (observations_of record) ->
                  type_ o = m
                  /\ lists HEALTHKIT_METRICS (category o) m
                  /\ forall c, lists HEALTHKIT_METRICS c m ->
                               c = category o).
Proof.
  intros root records. eexists. split; [apply parse_document |].
  split; [reflexivity |]. split; [| split].
  - apply flat_map_length_le, observations_of_at_most_one.
  - apply filter_length_le.
  - intros record. split.
    + unfold observations_of, loop_body, opt_in.
      destruct (get record "type") as [m |]; [| reflexivity].
      now intros ->.
    + intros m o Htype Hin Ho.
      unfold observations_of, loop_body in Ho. rewrite Htype, Hin in Ho.
      pose proof (record_dict_outcome record m Hin) as Hout.
      destruct (record_dict record m) as [e | o'].
      * destruct Hout as [He _]. rewrite He in Ho. destruct Ho.
      * destruct Ho as [<- | []].
        destruct Hout as (Ht & _ & _ & Hlists).
        split; [exact Ht |]. split; [exact Hlists |].
        intros c Hc.
        exact (lists_unique HEALTHKIT_METRICS c (category o') m
                            catalog_NoDup Hc Hlists).
Qed.

Example sample_extraction :
  map (fun o => (type_ o, category o)) sample_frame
  = [ ("HKQuantityTypeIdentifierHeartRate", "Vital Signs");
      ("HKQuantityTypeIdentifierHeartRate", "Vital Signs");
      ("HKQuantityTypeIdentifierHeartRate", "Vital Signs");
      ("HKQuantityTypeIdentifierStepCount", "Activity");
      ("HKQuantityTypeIdentifierStepCount", "Activity");
      ("HKQuantityTypeIdentifierBodyMass", "Body Measurements");
      ("HKQuantityTypeIdentifierBodyMass", "Body Measurements") ].
Proof. vm_compute. reflexivity. Qed.

(** ** Values that are not finite *)




(** ** Malformed elements *)



(** The other ways of being malformed: no value, a date in another
    layout, no date. *)
Example missing_value_is_skipped :
  observations_of
    (Elem "Record"
          [("type", "HKQuantityTypeIdentifierBodyMass");
           ("startDate", "2024-01-31 22:00:00 +0000")] [])
  = [].
Proof. reflexivity. Qed.

Example unparsable_date_is_skipped :
  observations_of
    (Record_ "HKQuantityTypeIdentifierBodyMass" "72.0" "yesterday") = []
  /\ observations_of
       (Elem "Record"
             [("type", "HKQuantityTypeIdentifierBodyMass");
              ("value", "72.0")] [])
     = [].
Proof. split; reflexivity. Qed.

(** ** Fatal extraction errors *)

(** C8.  When [ET.parse] raises (the file cannot be read, or its text is
    not a well-formed tree), [parse_healthkit_export] reports the
    exception's text through [st.error] and returns [None]; and whenever it
    does return a frame, nothing was reported: a frame and an error never
    come together. *)
Theorem fatal_extraction_returns_none :
  forall (f : uploaded_file) (e : exn),
    ET_parse_getroot f = inl e ->
    parse_healthkit_export f
      = (None, [st_error ("Error processing file: " ++ exn_msg e)%string])
    /\ (forall f' df calls,
           parse_healthkit_export f' = (Some df, calls) ->
           calls = [] /\ exists root, f' = Document root).
Proof.
  intros f e Hparse. split.
  - unfold parse_healthkit_export, parse_body. rewrite Hparse. reflexivity.
  - intros f' df calls. unfold parse_healthkit_export, parse_body.
    destruct f' as [msg | msg | root]; simpl; try discriminate.
    destruct (for_records _ _ _); simpl; intros H; inversion H; subst.
    split; [reflexivity | now exists root].
Qed.

Lemma fatal_extraction_returns_none_witness :
  parse_healthkit_export ill_formed_export
    = (None,
       [st_error "Error processing file: syntax error: line 1, column 0"]).
Proof.
  exact (proj1 (fatal_extraction_returns_none
                  ill_formed_export
                  (Raise ParseError "syntax error: line 1, column 0")
                  eq_refl)).
Defined.

(* ===================================================================== *)
(** * Properties of the daily aggregator *)
(* ===================================================================== *)

(** ** The aggregation policy *)



(** The three rows the specification lists as examples. *)
Example heart_rate_policy_row :
  exists fig daily_data,
    create_visualization sample_frame
      "HKQuantityTypeIdentifierHeartRate" year_2024 = inr (fig, daily_data)
    /\ rows_at daily_data (Date 2024 2 2)
       = [Band (of_Z 70) (of_Z 60) (of_Z 80)].
Proof. do 2 eexists. split; vm_compute; reflexivity. Qed.

Example cumulative_policy_row :
  exists fig daily_data,
    create_visualization sample_frame
      "HKQuantityTypeIdentifierStepCount" year_2024 = inr (fig, daily_data)
    /\ rows_at daily_data (Date 2024 2 1) = [Single (of_Z 3000)].
Proof. do 2 eexists. split; vm_compute; reflexivity. Qed.

Example mean_policy_row :
  exists fig daily_data,
    create_visualization sample_frame
      "HKQuantityTypeIdentifierBodyMass" year_2024 = inr (fig, daily_data)
    /\ rows_at daily_data (Date 2024 1 31)
       = [Single (of_decimal false 705 (-1))].
Proof. do 2 eexists. split; vm_compute; reflexivity. Qed.

(** ** Precedence of the heart-rate test *)



(** ** The dates of the daily frame *)



(** ** A reversed range *)




(** ** Repeated aggregation over one frame *)



(* ===================================================================== *)
(** * Properties of the summary block *)
(* ===================================================================== *)

(** ** A frame without rows *)

(** On the one-column frame without rows the summary block raises
    nothing: it runs to its end and shows the four numbers. *)
Lemma empty_summary_is_not_signalled :
  daily_len (DailyValue []) = 0%nat
  /\ ~ (exists e, snd (main_summary (DailyValue [])) = inl e)
  /\ fst (main_summary (DailyValue [])) = nan_summary.
Proof.
  split; [reflexivity |]. split; [| reflexivity].
  intros [e He]. vm_compute in He. discriminate.
Qed.

(** C2, as the code has it.  On a one-column daily frame with zero rows
    the summary block signals nothing: the three reductions of the empty
    series are NaN, shown as "nan", and the day count is shown as 0. *)
Theorem empty_summary_shows_nan :
  forall rows : list (date * float64),
    daily_len (DailyValue rows) = 0%nat ->
    main_summary (DailyValue rows) = (nan_summary, ret tt).
Proof.
  intros rows Hlen. destruct rows as [| row rows]; [| discriminate].
  reflexivity.
Qed.

Lemma empty_summary_shows_nan_witness :
  main_summary (DailyValue []) = (nan_summary, ret tt).
Proof. exact (empty_summary_shows_nan [] eq_refl). Defined.

(* ===================================================================== *)
(** * Further properties of the record extractor *)
(* ===================================================================== *)

Lemma descendants_unfold (e : Element) :
  descendants e
  = flat_map (fun c => c :: descendants c) (children_of e).
Proof.
  destruct e as [t a children]. cbn [descendants children_of].
  induction children as [| c rest IH]; [reflexivity |].
  cbn [flat_map]. rewrite <- IH. reflexivity.
Qed.

(** [findall] looks at every depth. *)
Lemma below_descendants (root x : Element) :
  below root x -> In x (descendants root).
Proof.
  induction 1 as [root c Hc | root c x Hc _ IH];
    rewrite descendants_unfold; apply in_flat_map; exists c;
    (split; [exact Hc |]).
  - now left.
  - now right.
Qed.

Lemma record_dict_decodes (record : Element) (m : string) (o : Observation) :
  get record "type" = Some m ->
  str_in m all_metrics = true ->
  record_dict record m = inr o ->
  decodes_to record o.
Proof.
  intros Htype Hin Hdict.
  pose proof (record_dict_outcome record m Hin) as Hout.
  rewrite Hdict in Hout. destruct Hout as (Ht & Hv & Hd & Hl).
  assert (Hunit : unit_ o = get record "unit").
  { unfold record_dict in Hdict.
    destruct (PyFloat.float (get record "value")); [discriminate |].
    destruct (PyDatetime.strptime (get record "startDate"));
      [discriminate |].
    cbn [bind] in Hdict.
    destruct (next_category HEALTHKIT_METRICS m); [discriminate |].
    cbn [bind ret] in Hdict. inversion Hdict. reflexivity. }
  unfold decodes_to. rewrite Ht. auto.
Qed.

(** What one element contributes, by whether it is well formed. *)
Lemma observations_of_cases (record : Element) :
  if well_formed record
  then exists o, observations_of record = [o] /\ decodes_to record o
  else observations_of record = [].
Proof.
  unfold well_formed, observations_of, loop_body, opt_in.
  destruct (get record "type") as [m |] eqn:Htype; [| reflexivity].
  destruct (str_in m all_metrics) eqn:Hin; [| reflexivity].
  pose proof (record_dict_outcome record m Hin) as Hout.
  destruct (record_dict record m) as [e | o] eqn:Hdict.
  - destruct Hout as [He [Hv | Ht]]; rewrite He.
    + rewrite Hv. reflexivity.
    + rewrite Ht. cbn. now rewrite andb_false_r.
  - destruct Hout as (_ & Hv & Ht & _). rewrite Hv, Ht. cbn.
    exists o. split; [reflexivity |].
    exact (record_dict_decodes record m o Htype Hin Hdict).
Qed.

Lemma frame_of_records (records : list Element) :
  Forall2 decodes_to (filter well_formed records)
          (flat_map observations_of records).
Proof.
  induction records as [| record rest IH]; cbn [filter flat_map].
  - constructor.
  - pose proof (observations_of_cases record) as Hcase.
    destruct (well_formed record).
    + destruct Hcase as [o [-> Ho]]. cbn [app]. now constructor.
    + rewrite Hcase. exact IH.
Qed.

(** X1.  A [Record] element at any depth below the root, with a type of
    the catalog, a value [float] reads and a start date [strptime] reads,
    is never dropped: the frame holds the observation made of its type,
    that float, its unit attribute as it stands (or [None]), that
    timestamp and a category that lists the type. *)
Theorem well_formed_record_is_extracted :
  forall (root record : Element) (m : string) (v : float64) (t : datetime),
    below root record ->
    tag_of record = "Record" ->
    get record "type" = Some m ->
    str_in m all_metrics = true ->
    PyFloat.float (get record "value") = inr v ->
    PyDatetime.strptime (get record "startDate") = inr t ->
    exists df c,
      parse_healthkit_export (Document root) = (Some df, [])
      /\ lists HEALTHKIT_METRICS c m
      /\ In {| type_ := m; value := v; unit_ := get record "unit";
               date_ := t; category := c |} df.
Proof.
  intros root record m v t Hbelow Htag Htype Hin Hv Ht.
  pose proof (observations_of_cases record) as Hcase.
  unfold well_formed, opt_in in Hcase.
  rewrite Htype, Hin, Hv, Ht in Hcase. cbn in Hcase.
  destruct Hcase as [o [Hobs (Hty & Hval & Hunit & Hdate & Hlists)]].
  assert (Ho : o = {| type_ := m; value := v; unit_ := get record "unit";
                      date_ := t; category := category o |}).
  { destruct o as [ty va un da ca]. cbn in *. congruence. }
  exists (flat_map observations_of (findall_descendants root "Record")).
  exists (category o). split; [apply parse_document |]. split.
  - assert (type_ o = m) as <- by congruence. exact Hlists.
  - rewrite <- Ho. apply in_flat_map. exists record. split.
    + apply filter_In. split; [now apply below_descendants |].
      rewrite Htag. reflexivity.
    + rewrite Hobs. now left.
Qed.

Lemma well_formed_record_is_extracted_witness :
  exists df c,
    parse_healthkit_export (Document nested_export) = (Some df, [])
    /\ lists HEALTHKIT_METRICS c "HKQuantityTypeIdentifierStepCount"
    /\ In {| type_ := "HKQuantityTypeIdentifierStepCount";
             value := of_Z 12;
             unit_ := Some "count";
             date_ := {| dt_day := Date 2024 2 1; hour := 9; minute := 0;
                         second := 0; utcoffset := 0 |};
             category := c |} df.
Proof.
  refine (well_formed_record_is_extracted
            nested_export
            (Record_ "HKQuantityTypeIdentifierStepCount" "12"
                     "2024-02-01 09:00:00 +0000")
            "HKQuantityTypeIdentifierStepCount" (of_Z 12) _ _ _ _ _ _ _).
  - eapply below_deeper; [left; reflexivity |].
    apply below_child. left. reflexivity.
  - reflexivity.
  - reflexivity.
  - reflexivity.
  - vm_compute. reflexivity.
  - vm_compute. reflexivity.
Defined.


(* ===================================================================== *)
(** * Further properties of the daily aggregator *)
(* ===================================================================== *)


Lemma day_values_in_range df metric_type date_range d :
  date_leb (fst date_range) d = true ->
  date_leb d (snd date_range) = true ->
  day_values df metric_type date_range d
  = map value
        (filter (fun r => String.eqb (type_ r) metric_type
                          && date_eqb (dt_date r) d) df).
Proof.
  intros Hlo Hhi. unfold day_values. f_equal. apply filter_ext.
  intros r. unfold in_selection.
  destruct (date_eqb (dt_date r) d) eqn:Heq.
  - apply date_eqb_eq in Heq. rewrite Heq, Hlo, Hhi.
    now rewrite !andb_true_r.
  - now rewrite !andb_false_r.
Qed.

(** X4.  The row of a day does not depend on the rest of the range: two
    calls whose ranges both contain the day return the same row for it
    (or both none).  Narrowing or widening the range only removes or
    adds days. *)
Theorem day_row_is_independent_of_range :
  forall (df : DataFrame) (metric_type : string)
         (range1 range2 : date * date) (d : date)
         (fig1 fig2 : Figure) (daily1 daily2 : DailyData),
    create_visualization df metric_type range1 = inr (fig1, daily1) ->
    create_visualization df metric_type range2 = inr (fig2, daily2) ->
    date_leb (fst range1) d = true -> date_leb d (snd range1) = true ->
    date_leb (fst range2) d = true -> date_leb d (snd range2) = true ->
    rows_at daily1 d = rows_at daily2 d.
Proof.
  intros df metric_type range1 range2 d fig1 fig2 daily1 daily2
         H1 H2 Hlo1 Hhi1 Hlo2 Hhi2.
  pose proof (create_visualization_cases df metric_type range1) as Hc1.
  pose proof (create_visualization_cases df metric_type range2) as Hc2.
  rewrite H1 in Hc1. rewrite H2 in Hc2.
  destruct Hc1 as [-> _]. destruct Hc2 as [-> _].
  rewrite !daily_frame_rows_at.
  assert (Hsame : day_values df metric_type range1 d
                  = day_values df metric_type range2 d)
    by (rewrite !day_values_in_range by assumption; reflexivity).
  assert (Hex : forall range,
             existsb (date_eqb d)
               (map dt_date (filter (in_selection metric_type range) df))
             = negb (match day_values df metric_type range d with
                     | [] => true
                     | _ => false
                     end)).
  { intros range.
    pose proof (day_values_nonempty df metric_type range d) as Hne.
    destruct (day_values df metric_type range d) eqn:Hdv; cbn.
    - destruct (existsb _ _); [| reflexivity].
      exfalso. now apply (proj2 Hne).
    - apply Hne. discriminate. }
  rewrite (Hex range1), (Hex range2), Hsame. reflexivity.
Qed.

Lemma day_row_is_independent_of_range_witness :
  exists fig1 daily1 fig2 daily2,
    create_visualization sample_frame "HKQuantityTypeIdentifierBodyMass"
                         year_2024 = inr (fig1, daily1)
    /\ create_visualization sample_frame "HKQuantityTypeIdentifierBodyMass"
                            (Date 2024 1 31, Date 2024 1 31)
       = inr (fig2, daily2)
    /\ rows_at daily1 (Date 2024 1 31) = rows_at daily2 (Date 2024 1 31).
Proof.
  destruct (create_visualization sample_frame
              "HKQuantityTypeIdentifierBodyMass" year_2024)
    as [e | [fig1 daily1]] eqn:H1; [vm_compute in H1; discriminate |].
  destruct (create_visualization sample_frame
              "HKQuantityTypeIdentifierBodyMass"
              (Date 2024 1 31, Date 2024 1 31))
    as [e | [fig2 daily2]] eqn:H2; [vm_compute in H2; discriminate |].
  exists fig1, daily1, fig2, daily2.
  split; [reflexivity |]. split; [reflexivity |].
  exact (day_row_is_independent_of_range
           _ _ _ _ (Date 2024 1 31) _ _ _ _ H1 H2
           eq_refl eq_refl eq_refl eq_refl).
Defined.




Section Emptiness.
Import Pandas.

Lemma insert_key_length (k : date) (keys : list date) :
  (1 <= List.length (insert_key k keys) <= S (List.length keys))%nat.
Proof.
  induction keys as [| k' rest IH]; cbn [insert_key List.length]; [lia |].
  destruct (date_ltb k k'); cbn [List.length]; [lia |].
  destruct (date_eqb k k'); cbn [List.length]; lia.
Qed.

Lemma group_keys_length (ks : list date) :
  (List.length (group_keys ks) <= List.length ks)%nat
  /\ (ks <> [] -> group_keys ks <> []).
Proof.
  induction ks as [| k ks [IHlen _]]; cbn [group_keys fold_right].
  - split; [cbn; lia | congruence].
  - fold (group_keys ks).
    pose proof (insert_key_length k (group_keys ks)) as Hins.
    split; [cbn [List.length]; lia |].
    intros _ Hnil. rewrite Hnil in Hins. cbn in Hins. lia.
Qed.

End Emptiness.

Lemma daily_frame_length df metric_type date_range :
  daily_len (daily_frame df metric_type date_range)
  = List.length (dates_of (daily_frame df metric_type date_range)).
Proof.
  unfold daily_frame.
  destruct (PyStr.contains "HeartRate" metric_type); cbn;
    now rewrite length_map.
Qed.

(** X6.  The returned frame has no rows exactly when no observation of
    the frame passes the mask (one of another type or outside the range
    does not); and it never has more rows than observations pass. *)
Theorem empty_frame_iff_nothing_selected :
  forall (df : DataFrame) (metric_type : string) (date_range : date * date)
         (fig : Figure) (daily_data : DailyData),
    create_visualization df metric_type date_range = inr (fig, daily_data) ->
    (daily_len daily_data = 0%nat
     <-> forall o, In o df -> in_selection metric_type date_range o = false)
    /\ (daily_len daily_data
        <= List.length (filter (in_selection metric_type date_range) df))%nat.
Proof.
  intros df metric_type date_range fig daily_data Hcv.
  pose proof (create_visualization_cases df metric_type date_range) as Hc.
  rewrite Hcv in Hc. destruct Hc as [-> _].
  rewrite daily_frame_length, daily_frame_dates.
  set (selected := filter (in_selection metric_type date_range) df).
  destruct (group_keys_length (map dt_date selected)) as [Hlen Hne].
  rewrite length_map in Hlen. split; [| exact Hlen].
  split.
  - intros Hzero o Ho.
    destruct (in_selection metric_type date_range o) eqn:Hsel;
      [| reflexivity].
    exfalso.
    assert (Hin : In o selected) by (apply filter_In; now split).
    destruct selected as [| r rest]; [destruct Hin |].
    apply Hne; [discriminate |].
    now apply length_zero_iff_nil.
  - intros Hnone.
    assert (Hnil : selected = []).
    { unfold selected. clear - Hnone.
      induction df as [| r df IH]; [reflexivity |].
      cbn [filter]. rewrite (Hnone r (or_introl eq_refl)).
      apply IH. intros o Ho. apply Hnone. now right. }
    rewrite Hnil. reflexivity.
Qed.

Lemma empty_frame_iff_nothing_selected_witness :
  exists fig daily_data,
    create_visualization sample_frame "HKQuantityTypeIdentifierStepCount"
                         (Date 2025 1 1, Date 2025 12 31)
    = inr (fig, daily_data)
    /\ daily_len daily_data = 0%nat.
Proof.
  destruct (create_visualization sample_frame
              "HKQuantityTypeIdentifierStepCount"
              (Date 2025 1 1, Date 2025 12 31))
    as [e | [fig daily_data]] eqn:Hcv; [vm_compute in Hcv; discriminate |].
  exists fig, daily_data. split; [reflexivity |].
  apply (proj1 (empty_frame_iff_nothing_selected _ _ _ _ _ Hcv)).
  intros o Ho. vm_compute in Ho.
  repeat (destruct Ho as [<- | Ho]; [vm_compute; reflexivity |]).
  destruct Ho.
Defined.

Section RecordOrder.
Import Pandas.

(** Two strictly increasing lists with the same members are equal. *)
Lemma sorted_same_members (l1 l2 : list date) :
  StronglySorted date_lt l1 -> StronglySorted date_lt l2 ->
  (forall d, In d l1 <-> In d l2) -> l1 = l2.
Proof.
  intros H1. revert l2.
  induction H1 as [| a l1 Hs1 IH Ha]; intros l2 H2 Hmem.
  - destruct l2 as [| b l2]; [reflexivity |].
    destruct (proj2 (Hmem b) (or_introl eq_refl)).
  - destruct H2 as [| b l2 Hs2 Hb].
    + destruct (proj1 (Hmem a) (or_introl eq_refl)).
    + rewrite Forall_forall in Ha, Hb.
      assert (Hab : a = b).
      { destruct (proj1 (Hmem a) (or_introl eq_refl)) as [Hba | Hin2];
          [now symmetry |].
        destruct (proj2 (Hmem b) (or_introl eq_refl)) as [Hba | Hin1];
          [exact Hba |].
        pose proof (date_ltb_trans _ _ _ (Ha b Hin1) (Hb a Hin2)) as Hcyc.
        rewrite date_ltb_irrefl in Hcyc. discriminate. }
      subst b. f_equal. apply IH; [exact Hs2 |].
      intros d. split; intros Hd.
      * destruct (proj1 (Hmem d) (or_intror Hd)) as [<- | Hd2];
          [| exact Hd2].
        pose proof (Ha a Hd) as Hcyc. unfold date_lt in Hcyc.
        rewrite date_ltb_irrefl in Hcyc. discriminate.
      * destruct (proj2 (Hmem d) (or_intror Hd)) as [<- | Hd1];
          [| exact Hd1].
        pose proof (Hb a Hd) as Hcyc. unfold date_lt in Hcyc.
        rewrite date_ltb_irrefl in Hcyc. discriminate.
Qed.

Lemma Permutation_filter_same {A} (P : A -> bool) (l l' : list A) :
  Permutation l l' -> Permutation (filter P l) (filter P l').
Proof.
  induction 1 as [| a l l' _ IH | a b l | l l' l'' _ IH1 _ IH2];
    cbn [filter].
  - constructor.
  - destruct (P a); [now constructor | exact IH].
  - destruct (P a), (P b); try reflexivity. constructor.
  - now transitivity (filter P l').
Qed.

End RecordOrder.

(** X7.  The order of the rows of the frame (the order of the records in
    the export) does not change which days the result shows, nor which
    values fall on a day: for two frames that are permutations of each
    other the date columns are equal and each day's group holds the same
    values up to order. *)
Theorem days_do_not_depend_on_record_order :
  forall (df df' : DataFrame) (metric_type : string)
         (date_range : date * date)
         (fig fig' : Figure) (daily_data daily_data' : DailyData),
    Permutation df df' ->
    create_visualization df metric_type date_range = inr (fig, daily_data) ->
    create_visualization df' metric_type date_range
    = inr (fig', daily_data') ->
    dates_of daily_data = dates_of daily_data'
    /\ forall d,
         Permutation (day_values df metric_type date_range d)
                     (day_values df' metric_type date_range d).
Proof.
  intros df df' metric_type date_range fig fig' daily_data daily_data'
         Hperm Hcv Hcv'.
  pose proof (create_visualization_cases df metric_type date_range) as Hc.
  pose proof (create_visualization_cases df' metric_type date_range) as Hc'.
  rewrite Hcv in Hc. rewrite Hcv' in Hc'.
  destruct Hc as [-> _]. destruct Hc' as [-> _]. split.
  - rewrite !daily_frame_dates.
    apply sorted_same_members; try apply group_keys_sorted.
    intros d. rewrite !In_group_keys.
    assert (Hp : Permutation
                   (map dt_date
                        (filter (in_selection metric_type date_range) df))
                   (map dt_date
                        (filter (in_selection metric_type date_range) df')))
      by now apply Permutation_map, Permutation_filter_same.
    split; apply Permutation_in; [exact Hp | now symmetry].
  - intros d. unfold day_values.
    now apply Permutation_map, Permutation_filter_same.
Qed.

Lemma days_do_not_depend_on_record_order_witness :
  exists fig daily_data fig' daily_data',
    create_visualization sample_frame "HKQuantityTypeIdentifierHeartRate"
                         year_2024 = inr (fig, daily_data)
    /\ create_visualization (rev sample_frame)
                            "HKQuantityTypeIdentifierHeartRate" year_2024
       = inr (fig', daily_data')
    /\ dates_of daily_data = dates_of daily_data'.
Proof.
  destruct (create_visualization sample_frame
              "HKQuantityTypeIdentifierHeartRate" year_2024)
    as [e | [fig daily_data]] eqn:H1; [vm_compute in H1; discriminate |].
  destruct (create_visualization (rev sample_frame)
              "HKQuantityTypeIdentifierHeartRate" year_2024)
    as [e | [fig' daily_data']] eqn:H2; [vm_compute in H2; discriminate |].
  exists fig, daily_data, fig', daily_data'.
  split; [reflexivity |]. split; [reflexivity |].
  exact (proj1 (days_do_not_depend_on_record_order
                  _ _ _ _ _ _ _ _ (Permutation_rev sample_frame) H1 H2)).
Defined.




Section TitleText.
Import PyStr.








End TitleText.



(* ===================================================================== *)
(** * Properties of [main] *)
(* ===================================================================== *)

Lemma In_unique (x : string) (l : list string) :
  In x (unique l) <-> In x l.
Proof.
  induction l as [| a l IH]; cbn [unique In]; [tauto |].
  rewrite filter_In, IH.
  destruct (String.eqb_spec a x) as [-> | Hne]; cbn; intuition congruence.
Qed.

Lemma dict_getitem_found (d : list (string * list string)) (key : string) :
  In key (map fst d) ->
  dict_getitem d key
  = done (match find (fun kv => String.eqb (fst kv) key) d with
          | Some kv => snd kv
          | None => []
          end).
Proof.
  induction d as [| [k v] rest IH]; cbn [map In dict_getitem find fst snd].
  - intros [].
  - intros Hin. destruct (String.eqb_spec k key) as [-> | Hne];
      [reflexivity |].
    apply IH. destruct Hin as [Hk | Hin]; [congruence | exact Hin].
Qed.


(** A category of the catalog lists what [metrics_of] returns for it. *)
Lemma metrics_of_entry (category : string) (metrics : list string) :
  In (category, metrics) HEALTHKIT_METRICS ->
  metrics_of category = metrics.
Proof.
  unfold HEALTHKIT_METRICS. cbn [In]. intros H.
  repeat (destruct H as [H | H]; [now inversion H |]). destruct H.
Qed.

Lemma In_available (df : DataFrame) (metrics : list string) (m : string) :
  In m (available_in df metrics)
  <-> In m metrics /\ exists o, In o df /\ type_ o = m.
Proof.
  unfold available_in. rewrite filter_In, str_in_In, In_unique, in_map_iff.
  split.
  - intros [Hm [o [Ho Hin]]]. eauto.
  - intros [Hm [o [Hin Ho]]]. eauto.
Qed.

(** A frame never comes with a message. *)
Lemma parse_some_quiet (f : uploaded_file) (df : DataFrame)
      (calls : list st_call) :
  parse_healthkit_export f = (Some df, calls) ->
  calls = []
  /\ exists root,
       f = Document root
       /\ df = flat_map observations_of (findall_descendants root "Record").
Proof.
  destruct f as [msg | msg | root]; try discriminate.
  rewrite parse_document. intros H. inversion H. eauto.
Qed.

(** The run on a frame with rows, branch by branch. *)
Lemma main_with_frame (s : Session) (f : uploaded_file) (df : DataFrame) :
  selectbox_picks_an_option s ->
  file_uploader s = Some f ->
  fst (parse_healthkit_export f) = Some df ->
  df <> [] ->
  main s
  = match offered_metrics s df with
    | [] =>
        (page_top ++ sidebar_top
         ++ [st_warning ("No data available for the selected category: "
                         ++ selected_category s)%string;
             st_write "Available categories in your data:"
                      (unique (category_column df))],
         inr tt)
    | _ :: _ =>
        match create_visualization_call df (selected_metric s df)
                                        (selected_range s df) with
        | inl e =>
            (page_top ++ sidebar_top ++ sidebar_metric s df,
             inl (Raised e))
        | inr (fig, daily_data) =>
            match snd (main_summary daily_data) with
            | inl e =>
                (page_top ++ sidebar_top ++ sidebar_metric s df
                 ++ [st_plotly_chart fig true]
                 ++ map st_ (fst (main_summary daily_data)),
                 inl (Raised e))
            | inr _ =>
                (page_top ++ sidebar_top ++ sidebar_metric s df
                 ++ [st_plotly_chart fig true]
                 ++ map st_ (fst (main_summary daily_data))
                 ++ [st_ (st_subheader "Raw Data");
                     st_dataframe daily_data],
                 inr tt)
            end
        end
    end.
Proof.
  intros Hpick Hup Hparse Hdf.
  destruct (parse_healthkit_export f) as [odf calls] eqn:Hp.
  cbn [fst] in Hparse. subst odf.
  destruct (parse_some_quiet _ _ _ Hp) as [-> _].
  assert (Hcat : In (selected_category s) (map fst HEALTHKIT_METRICS))
    by (apply Hpick; discriminate).
  unfold main. rewrite Hup, Hp.
  destruct df as [| first rest]; [congruence |].
  cbn [and_then show done of_call of_py fst snd app map ret].
  fold (selected_category s).
  rewrite (dict_getitem_found _ _ Hcat). fold (metrics_of (selected_category s)).
  unfold done. cbn [and_then].
  fold (offered_metrics s (first :: rest)).
  change [date_min first rest; date_max first rest]
    with (date_span (first :: rest)).
  destruct (offered_metrics s (first :: rest)) as [| m ms] eqn:Hoff;
    [reflexivity |].
  rewrite <- Hoff.
  fold (selected_metric s (first :: rest)).
  fold (selected_range s (first :: rest)).
  destruct (create_visualization_call _ _ _) as [e | [fig daily_data]];
    [reflexivity |].
  destruct (snd (main_summary daily_data)); reflexivity.
Qed.

Lemma picking_picks_an_option f preferred range :
  selectbox_picks_an_option (picking f preferred range).
Proof.
  intros label options Hne. cbn [selectbox picking].
  destruct (find _ options) as [o |] eqn:Hfind.
  - now apply find_some in Hfind.
  - destruct options; [congruence | now left].
Qed.












(** Every row of an extracted frame carries a category that lists its
    type. *)
Lemma extracted_category_lists_type (f : uploaded_file) (df : DataFrame)
      (o : Observation) :
  fst (parse_healthkit_export f) = Some df ->
  In o df ->
  lists HEALTHKIT_METRICS (category o) (type_ o).
Proof.
  intros Hp Ho.
  destruct (parse_healthkit_export f) as [odf calls] eqn:Hparse.
  cbn [fst] in Hp. subst odf.
  destruct (parse_some_quiet _ _ _ Hparse) as [_ [root [_ ->]]].
  clear Hparse.
  pose proof (frame_of_records (findall_descendants root "Record")) as H.
  induction H as [| record o' records rows Hdec _ IH]; [destruct Ho |].
  destruct Ho as [<- | Ho]; [| exact (IH Ho)].
  now destruct Hdec as (_ & _ & _ & _ & Hlists).
Qed.

(** X14.  When the frame has rows but none of a metric of the selected
    category, the run shows the warning with the category's name and the
    categories found in the data, and ends.  That list is not empty, has
    no repetition, holds exactly the categories of the rows, and never
    holds the selected category. *)
Theorem warning_lists_the_categories_with_data :
  forall (s : Session) (f : uploaded_file) (df : DataFrame),
    selectbox_picks_an_option s ->
    file_uploader s = Some f ->
    fst (parse_healthkit_export f) = Some df ->
    df <> [] ->
    offered_metrics s df = [] ->
    exists found,
      main s
      = (page_top ++ sidebar_top
         ++ [st_warning ("No data available for the selected category: "
                         ++ selected_category s)%string;
             st_write "Available categories in your data:" found],
         inr tt)
      /\ found <> []
      /\ (forall c, In c found <-> exists o, In o df /\ category o = c)
      /\ ~ In (selected_category s) found.
Proof.
  intros s f df Hpick Hup Hp Hdf Hoff.
  exists (unique (category_column df)).
  assert (Hfound : forall c, In c (unique (category_column df))
                             <-> exists o, In o df /\ category o = c).
  { intros c. unfold category_column. rewrite In_unique, in_map_iff.
    split; intros [o [H1 H2]]; eauto. }
  split; [| split; [| split]].
  - rewrite (main_with_frame s f df Hpick Hup Hp Hdf), Hoff. reflexivity.
  - destruct df as [| o rest]; [congruence |].
    intros Hnil.
    assert (Hin : In (category o) (unique (category_column (o :: rest))))
      by (apply Hfound; exists o; split; [now left | reflexivity]).
    rewrite Hnil in Hin. destruct Hin.
  - exact Hfound.
  - intros Hin. apply Hfound in Hin. destruct Hin as [o [Ho Hc]].
    pose proof (extracted_category_lists_type f df o Hp Ho) as Hlists.
    rewrite Hc in Hlists. destruct Hlists as [metrics [Hentry Hm]].
    apply metrics_of_entry in Hentry.
    assert (Hoffered : In (type_ o) (offered_metrics s df)).
    { unfold offered_metrics. apply In_available.
      rewrite Hentry. split; [exact Hm | eauto]. }
    rewrite Hoff in Hoffered. destruct Hoffered.
Qed.

Lemma warning_lists_the_categories_with_data_witness :
  exists found,
    main (picking sample_export ["Sleep"] [])
    = (page_top ++ sidebar_top
       ++ [st_warning "No data available for the selected category: Sleep";
           st_write "Available categories in your data:" found],
       inr tt)
    /\ found <> []
    /\ ~ In "Sleep" found.
Proof.
  destruct (warning_lists_the_categories_with_data
              (picking sample_export ["Sleep"] [])
              sample_export sample_frame
              (picking_picks_an_option _ _ _) eq_refl eq_refl)
    as [found (Hmain & Hne & _ & Hnot)].
  - vm_compute. discriminate.
  - vm_compute. reflexivity.
  - exists found. auto.
Defined.




